(** * Clinical-trial data assistant: question resolver and filter executor

    A shallow embedding of [question_4_clinical_agent/clinical_data_agent.py]
    (class [ClinicalTrialDataAgent]) together with the properties its
    specification states about it.

    Modelling conventions.
    - Text is a [string].  [lower] and [upper] are [str.lower] and
      [str.upper] on ASCII text: they map the ASCII letters and leave every
      other character alone.  Every keyword and every value of the rule
      table is ASCII; what is stated of arbitrary text goes through the
      case mappings without computing them, or is stated for ASCII text.
    - [w in s] (substring containment) is [contains w s].
    - A Python object that travels through [_call_llm] (the result of
      [json.loads], or the dict literal built by the rule engine) is a
      [Json] value.
    - A [DataFrame] is a header, the dtype of each column and a list of
      rows; a cell is a string or missing ([None] stands for NaN).  Only a
      column of dtype object has the [.str] accessor; a value of a column
      of another dtype is held by its text.
    - Exceptions are values of [PyError] carried in a sum type. *)

From Stdlib Require Import Bool Arith List Lia Ascii String Sorted.
Import ListNotations.
Open Scope string_scope.
Open Scope list_scope.
Set Warnings "-register-all".

(** ** Text primitives *)

Module Text.

Definition is_upper (c : ascii) : bool :=
  let n := nat_of_ascii c in Nat.leb 65 n && Nat.leb n 90.

Definition is_lower (c : ascii) : bool :=
  let n := nat_of_ascii c in Nat.leb 97 n && Nat.leb n 122.

Definition lower_char (c : ascii) : ascii :=
  if is_upper c then ascii_of_nat (nat_of_ascii c + 32) else c.

Definition upper_char (c : ascii) : ascii :=
  if is_lower c then ascii_of_nat (nat_of_ascii c - 32) else c.

Definition is_ascii_char (c : ascii) : bool := Nat.ltb (nat_of_ascii c) 128.

(** [s.isascii()] *)
Fixpoint is_ascii (s : string) : bool :=
  match s with
  | EmptyString => true
  | String c s' => is_ascii_char c && is_ascii s'
  end.

(** [s.lower()] on ASCII text: the letters A to Z are mapped, every other
    character is left as it is. *)
Fixpoint lower (s : string) : string :=
  match s with
  | EmptyString => EmptyString
  | String c s' => String (lower_char c) (lower s')
  end.

(** [s.upper()] on ASCII text: the letters a to z are mapped, every other
    character is left as it is. *)
Fixpoint upper (s : string) : string :=
  match s with
  | EmptyString => EmptyString
  | String c s' => String (upper_char c) (upper s')
  end.

(** [s.startswith(w)] *)
Fixpoint starts_with (w s : string) : bool :=
  match w, s with
  | EmptyString, _ => true
  | String _ _, EmptyString => false
  | String a w', String b s' => Ascii.eqb a b && starts_with w' s'
  end.

(** [w in s] *)
Fixpoint contains (w s : string) : bool :=
  starts_with w s ||
  match s with
  | EmptyString => false
  | String _ s' => contains w s'
  end.

(** [any(word in s for word in words)] *)
Definition any_in (words : list string) (s : string) : bool :=
  existsb (fun word => contains word s) words.

End Text.
Import Text.

(** ** Python values and exceptions *)

Inductive Json : Type :=
| JNull
| JBool (b : bool)
| JNum (n : nat)
| JStr (s : string)
| JArr (items : list Json)
| JObj (fields : list (string * Json)).

Inductive PyError : Type :=
| KeyError (key : string)
| TypeError
| AttributeError
| IllTyped.

Definition Result (A : Type) : Type := (PyError + A)%type.

Definition ret {A} (a : A) : Result A := inr a.
Definition raise {A} (e : PyError) : Result A := inl e.
Definition bind {A B} (m : Result A) (k : A -> Result B) : Result B :=
  match m with
  | inl e => inl e
  | inr a => k a
  end.

Notation "x <- m ;; k" := (bind m (fun x => k))
  (at level 61, m at next level, right associativity).

(** [d.get(key)] on the fields of a dict *)
Fixpoint assoc (key : string) (fields : list (string * Json)) : option Json :=
  match fields with
  | [] => None
  | (k, v) :: rest => if String.eqb k key then Some v else assoc key rest
  end.

(** [obj[key]] with a string key: a dict answers or raises [KeyError];
    anything else raises [TypeError]. *)
Definition getitem (obj : Json) (key : string) : Result Json :=
  match obj with
  | JObj fields =>
      match assoc key fields with
      | Some v => ret v
      | None => raise (KeyError key)
      end
  | _ => raise TypeError
  end.

(** The dict literal [{"target_column": c, "filter_value": v}]. *)
Definition response (c v : string) : Json :=
  JObj [("target_column", JStr c); ("filter_value", JStr v)].

(** ** The rule-based resolver: [_mock_llm_response] *)

Definition severity_triggers : list string :=
  ["severity"; "severe"; "intensity"; "intense"].

Definition severity_levels : list string := ["mild"; "moderate"; "severe"].

(** Severity/Intensity mapping; falls through when no level word is found. *)
Definition severity_rule (question_lower : string) : option Json :=
  if any_in severity_triggers question_lower then
    if contains "mild" question_lower then Some (response "AESEV" "MILD")
    else if contains "moderate" question_lower then Some (response "AESEV" "MODERATE")
    else if contains "severe" question_lower then Some (response "AESEV" "SEVERE")
    else None
  else None.

(** Body system mapping *)
Definition body_system_rule (question_lower : string) : option Json :=
  if any_in ["cardiac"; "heart"; "cardiovascular"] question_lower then
    Some (response "AESOC" "CARDIAC DISORDERS")
  else if any_in ["skin"; "dermal"; "dermatologic"] question_lower then
    Some (response "AESOC" "SKIN AND SUBCUTANEOUS TISSUE DISORDERS")
  else if any_in ["gastrointestinal"; "digestive"; "gi"; "stomach"] question_lower then
    Some (response "AESOC" "GASTROINTESTINAL DISORDERS")
  else if any_in ["infection"; "infectious"] question_lower then
    Some (response "AESOC" "INFECTIONS AND INFESTATIONS")
  else if any_in ["general disorder"; "administration site"] question_lower then
    Some (response "AESOC" "GENERAL DISORDERS AND ADMINISTRATION SITE CONDITIONS")
  else None.

(** Specific condition mapping (AETERM); a dict iterates in insertion order. *)
Definition conditions : list (string * string) :=
  [ ("erythema", "ERYTHEMA");
    ("diarrhea", "DIARRHOEA");
    ("diarrhoea", "DIARRHOEA");
    ("fatigue", "FATIGUE");
    ("pruritus", "APPLICATION SITE PRURITUS");
    ("itching", "APPLICATION SITE PRURITUS");
    ("headache", "HEADACHE");
    ("nausea", "NAUSEA");
    ("hiatus hernia", "HIATUS HERNIA");
    ("bundle branch block", "BUNDLE BRANCH BLOCK LEFT");
    ("respiratory infection", "UPPER RESPIRATORY TRACT INFECTION") ].

Fixpoint scan_conditions (items : list (string * string)) (question_lower : string)
  : option Json :=
  match items with
  | [] => None
  | (condition_key, condition_value) :: rest =>
      if contains condition_key question_lower
      then Some (response "AETERM" condition_value)
      else scan_conditions rest question_lower
  end.

Definition condition_rule (question_lower : string) : option Json :=
  scan_conditions conditions question_lower.

(** Serious event mapping *)
Definition serious_rule (question_lower : string) : option Json :=
  if contains "serious" question_lower then
    let value :=
      if contains "yes" question_lower || contains "serious" question_lower
      then "Y" else "N" in
    Some (response "AESER" value)
  else None.

(** Relationship mapping; falls through when no causality word is found. *)
Definition relationship_rule (question_lower : string) : option Json :=
  if contains "relationship" question_lower || contains "related" question_lower then
    if contains "probable" question_lower then Some (response "AEREL" "PROBABLE")
    else if contains "possible" question_lower then Some (response "AEREL" "POSSIBLE")
    else if contains "remote" question_lower then Some (response "AEREL" "REMOTE")
    else if contains "none" question_lower then Some (response "AEREL" "NONE")
    else None
  else None.

(** Outcome mapping *)
Definition outcome_rule (question_lower : string) : option Json :=
  if contains "outcome" question_lower || contains "resolved" question_lower
     || contains "recovered" question_lower then
    if contains "not" question_lower
    then Some (response "AEOUT" "NOT RECOVERED/NOT RESOLVED")
    else Some (response "AEOUT" "RECOVERED/RESOLVED")
  else None.

(** The rules in the order the source tries them. *)
Definition rules : list (string -> option Json) :=
  [ severity_rule; body_system_rule; condition_rule;
    serious_rule; relationship_rule; outcome_rule ].

(** First rule that returns wins. *)
Fixpoint first_match (rs : list (string -> option Json)) (question_lower : string)
  : option Json :=
  match rs with
  | [] => None
  | r :: rest =>
      match r question_lower with
      | Some answer => Some answer
      | None => first_match rest question_lower
      end
  end.

Definition _mock_llm_response (question : string) : Json :=
  let question_lower := lower question in
  match first_match rules question_lower with
  | Some answer => answer
  | None => response "AESEV" "MILD"   (* Default fallback *)
  end.

(** ** Data frames *)

(** A cell of a text column: a string, or [None] for a missing value. *)
Definition Cell : Type := option string.
Definition Row : Type := list Cell.
Definition Series : Type := list Cell.

(** The dtypes [read_csv] gives a column: object for text, the others for
    a column of numbers, of booleans, or with every cell missing. *)
Inductive Dtype : Type :=
| ObjectDtype
| Float64Dtype
| Int64Dtype
| BoolDtype.

Record DataFrame : Type := {
  columns : list string;
  dtypes : list Dtype;
  rows : list Row
}.

Definition cell_eqb (a b : Cell) : bool :=
  match a, b with
  | Some x, Some y => String.eqb x y
  | None, None => true
  | _, _ => false
  end.

Fixpoint index_of (name : string) (names : list string) : option nat :=
  match names with
  | [] => None
  | n :: rest =>
      if String.eqb n name then Some 0
      else option_map S (index_of name rest)
  end.

(** The cell of a row under the column at position [i]; a short row reads
    as missing there. *)
Definition cell_at (i : nat) (row : Row) : Cell := nth i row None.

(** [df[name]]: the column as a series, or [KeyError]. *)
Definition column (df : DataFrame) (name : string) : Result Series :=
  match index_of name (columns df) with
  | Some i => ret (map (cell_at i) (rows df))
  | None => raise (KeyError name)
  end.

(** The dtype of a named column (object when none is recorded). *)
Definition dtype_of (df : DataFrame) (name : string) : Dtype :=
  match index_of name (columns df) with
  | Some i => nth i (dtypes df) ObjectDtype
  | None => ObjectDtype
  end.

(** [series.str]: only a column of dtype object has the accessor. *)
Definition str (dtype : Dtype) (series : Series) : Result Series :=
  match dtype with
  | ObjectDtype => ret series
  | _ => raise AttributeError
  end.

(** [series.str.upper()]: missing stays missing. *)
Definition str_upper (s : Series) : Series := map (option_map upper) s.

(** [series == value]: a missing cell compares unequal. *)
Definition eq_scalar (s : Series) (value : string) : list bool :=
  map (fun c => match c with
                | Some x => String.eqb x value
                | None => false
                end) s.

(** [df[mask]]: the rows whose mask entry is true. *)
Fixpoint select (mask : list bool) (rs : list Row) : list Row :=
  match mask, rs with
  | b :: mask', r :: rs' =>
      if b then r :: select mask' rs' else select mask' rs'
  | _, _ => []
  end.

Definition boolean_index (df : DataFrame) (mask : list bool) : DataFrame :=
  {| columns := columns df; dtypes := dtypes df; rows := select mask (rows df) |}.

(** [series.unique()]: values in order of appearance, each once; a missing
    value counts as a value. *)
Fixpoint unique_from (seen : list Cell) (s : Series) : list Cell :=
  match s with
  | [] => []
  | c :: s' =>
      if existsb (cell_eqb c) seen then unique_from seen s'
      else c :: unique_from (c :: seen) s'
  end.

Definition unique (s : Series) : list Cell := unique_from [] s.

(** ** The filter executor: the body of [query] after parsing *)

(** The tuple [(count, unique_subjects, filtered_df)]. *)
Record QueryResult : Type := {
  count : nat;
  subject_ids : list Cell;
  filtered_df : DataFrame
}.

Definition run_filter (df : DataFrame) (target_column filter_value : string)
  : Result QueryResult :=
  (* Execute Pandas filter *)
  series <- column df target_column ;;
  text <- str (dtype_of df target_column) series ;;
  let mask := eq_scalar (str_upper text) (upper filter_value) in
  let filtered_df := boolean_index df mask in
  (* Extract unique subjects *)
  subjects <- column filtered_df "USUBJID" ;;
  let unique_subjects := unique subjects in
  let count := List.length unique_subjects in
  ret {| count := count; subject_ids := unique_subjects; filtered_df := filtered_df |}.

(** ** The agent *)

Record Agent : Type := {
  df : DataFrame;
  use_mock_llm : bool
}.

(** What the [try] block of [_call_llm] did: the import failed, some later
    statement raised (client construction, the request, [json.loads]), or
    [json.loads] returned a value. *)
Inductive Attempt : Type :=
| ImportFailed
| Raised
| Loaded (result : Json).

Definition _call_llm (self : Agent) (attempt : Attempt) (question : string) : Json :=
  if use_mock_llm self then _mock_llm_response question
  else
    match attempt with
    | Loaded result => result
    | ImportFailed => _mock_llm_response question
    | Raised => _mock_llm_response question
    end.

(** [query]: parse, then filter.  A field that is not a string makes the
    pandas expression raise ([IllTyped]); the column is looked up and
    uppercased before [filter_value.upper()] is evaluated. *)
Definition query (self : Agent) (attempt : Attempt) (question : string)
  : Result QueryResult :=
  let llm_output := _call_llm self attempt question in
  target_column <- getitem llm_output "target_column" ;;
  filter_value <- getitem llm_output "filter_value" ;;
  match target_column, filter_value with
  | JStr c, JStr v => run_filter (df self) c v
  | JStr c, _ =>
      series <- column (df self) c ;;
      _ <- str (dtype_of (df self) c) series ;;
      raise IllTyped
  | _, _ => raise IllTyped
  end.

(** ** Vocabulary of the specification *)

(** The [(target_column, filter_value)] pairs a [return] of
    [_mock_llm_response] can carry: the pairs written in the source, except
    (AESER, N), which line 166 writes but whose condition never selects
    (see [serious_rule_value]). *)
Definition codomain : list (string * string) :=
  [ ("AESEV", "MILD"); ("AESEV", "MODERATE"); ("AESEV", "SEVERE");
    ("AESOC", "CARDIAC DISORDERS");
    ("AESOC", "SKIN AND SUBCUTANEOUS TISSUE DISORDERS");
    ("AESOC", "GASTROINTESTINAL DISORDERS");
    ("AESOC", "INFECTIONS AND INFESTATIONS");
    ("AESOC", "GENERAL DISORDERS AND ADMINISTRATION SITE CONDITIONS");
    ("AETERM", "ERYTHEMA"); ("AETERM", "DIARRHOEA"); ("AETERM", "FATIGUE");
    ("AETERM", "APPLICATION SITE PRURITUS"); ("AETERM", "HEADACHE");
    ("AETERM", "NAUSEA"); ("AETERM", "HIATUS HERNIA");
    ("AETERM", "BUNDLE BRANCH BLOCK LEFT");
    ("AETERM", "UPPER RESPIRATORY TRACT INFECTION");
    ("AESER", "Y");
    ("AEREL", "PROBABLE"); ("AEREL", "POSSIBLE"); ("AEREL", "REMOTE"); ("AEREL", "NONE");
    ("AEOUT", "NOT RECOVERED/NOT RESOLVED"); ("AEOUT", "RECOVERED/RESOLVED") ].

Definition in_codomain (answer : Json) : Prop :=
  exists c v, answer = response c v /\ In (c, v) codomain.

(** The columns the prompt of [_call_llm] allows as [target_column]. *)
Definition filterable_columns : list string :=
  ["AETERM"; "AESEV"; "AESOC"; "AEBODSYS"; "AESER"; "AEREL"; "AEOUT"].

(** The columns that occur in a [return] of [_mock_llm_response]. *)
Definition resolver_columns : list string :=
  ["AESEV"; "AESOC"; "AETERM"; "AESER"; "AEREL"; "AEOUT"].

(** A well-formed parsed query: a dict with the two string fields, naming a
    filterable column and a non-empty value. *)
Definition well_formed (answer : Json) : Prop :=
  exists c v,
    answer = response c v /\ In c filterable_columns /\ v <> "".

(** Position of the first occurrence of [x] in [s] (the length of [s] when
    there is none). *)
Fixpoint first_index (x : Cell) (s : Series) : nat :=
  match s with
  | [] => 0
  | y :: s' => if cell_eqb x y then 0 else S (first_index x s')
  end.

(** The filter predicate of the specification: the cell is present and its
    uppercasing equals the uppercasing of the filter value. *)
Definition row_matches (i : nat) (value : string) (row : Row) : bool :=
  match cell_at i row with
  | Some s => String.eqb (upper s) (upper value)
  | None => false
  end.

Definition has_column (df : DataFrame) (name : string) : bool :=
  match index_of name (columns df) with
  | Some _ => true
  | None => false
  end.

(** The data set has the column and its dtype is object. *)
Definition is_text (df : DataFrame) (name : string) : bool :=
  has_column df name &&
  match dtype_of df name with
  | ObjectDtype => true
  | _ => false
  end.

(** What [run_filter] returns when the filtered column sits at position [i]
    and USUBJID at position [u]. *)
Definition filtered_result (df : DataFrame) (filter_value : string) (i u : nat)
  : QueryResult :=
  let matched := filter (row_matches i filter_value) (rows df) in
  let ids := unique (map (cell_at u) matched) in
  {| count := List.length ids;
     subject_ids := ids;
     filtered_df := {| columns := columns df; dtypes := dtypes df; rows := matched |} |}.

(** ** Sample data *)

Definition sample : DataFrame := {|
  columns := ["USUBJID"; "AETERM"; "AESEV"; "AESOC"];
  dtypes := [ObjectDtype; ObjectDtype; ObjectDtype; ObjectDtype];
  rows :=
    [ [Some "01-701-1015"; Some "ERYTHEMA"; Some "MILD"; Some "SKIN AND SUBCUTANEOUS TISSUE DISORDERS"];
      [Some "01-701-1023"; Some "DIARRHOEA"; Some "Moderate"; Some "GASTROINTESTINAL DISORDERS"];
      [Some "01-701-1015"; Some "FATIGUE"; None; None];
      [Some "01-701-1023"; Some "ERYTHEMA"; Some "MODERATE"; Some "SKIN AND SUBCUTANEOUS TISSUE DISORDERS"];
      [Some "01-701-1028"; Some "HEADACHE"; Some "moderate"; None];
      [Some "01-701-1015"; Some "NAUSEA"; Some "SEVERE"; Some "GASTROINTESTINAL DISORDERS"] ]
|}.

(** The rows of [sample] whose severity is moderate in any spelling. *)
Definition sample_moderate_rows : list Row :=
  [ nth 1 (rows sample) []; nth 3 (rows sample) []; nth 4 (rows sample) [] ].

Definition sample_moderate_result : QueryResult := {|
  count := 2;
  subject_ids := [Some "01-701-1023"; Some "01-701-1028"];
  filtered_df := {| columns := columns sample; dtypes := dtypes sample;
                    rows := sample_moderate_rows |}
|}.

(** A data set without a USUBJID column. *)
Definition no_subject_column : DataFrame := {|
  columns := ["AETERM"; "AESEV"];
  dtypes := [ObjectDtype; ObjectDtype];
  rows := [ [Some "ERYTHEMA"; Some "MILD"] ]
|}.

Definition mock_agent (data : DataFrame) : Agent :=
  {| df := data; use_mock_llm := true |}.

Definition live_agent (data : DataFrame) : Agent :=
  {| df := data; use_mock_llm := false |}.

Definition moderate_question : string :=
  "Give me the subjects who had Adverse events of Moderate severity".

(** A reply that is valid JSON but has other field names. *)
Definition misshapen_reply : Json :=
  JObj [("column", JStr "AESEV"); ("value", JStr "MODERATE")].

(** ** Presentation: [display_results] *)

(** One item per [print] call of the class, with the values it formats;
    the layout of the text is not modelled.  [Rule] is a line of 80 equal
    signs. *)
Inductive Printed : Type :=
| NoLibraryNotice
| LlmErrorNotice
| Rule
| QuestionLine (question : string)
| ParsedQueryHeader
| ColumnLine (target_column : Json)
| ValueLine (filter_value : Json)
| ResultsHeader
| TotalRecords (n : nat)
| UniqueSubjects (n : nat)
| SubjectIdsHeader
| SubjectLine (idx : nat) (subject_id : Cell)
| SampleHeader
| SampleTable (preview : DataFrame)
| SuiteTitle.

(** What [display_results] can raise: whatever [query] raised, or the
    KeyError of a list of column labels some of which are not in the frame. *)
Inductive DisplayError : Type :=
| QueryRaised (e : PyError)
| NotInIndex (missing : list string).

(** The two [except] branches of [_call_llm] print before falling back. *)
Definition _call_llm_prints (self : Agent) (attempt : Attempt) : list Printed :=
  if use_mock_llm self then []
  else
    match attempt with
    | Loaded _ => []
    | ImportFailed => [NoLibraryNotice]
    | Raised => [LlmErrorNotice]
    end.

(** What [query] prints: the parsed query, once both fields have been read
    and before the filter runs. *)
Definition query_prints (self : Agent) (attempt : Attempt) (question : string)
  : list Printed :=
  let llm_output := _call_llm self attempt question in
  _call_llm_prints self attempt ++
  match getitem llm_output "target_column", getitem llm_output "filter_value" with
  | inr target_column, inr filter_value =>
      [ParsedQueryHeader; ColumnLine target_column; ValueLine filter_value]
  | _, _ => []
  end.

(** [enumerate(items, start)] *)
Fixpoint enumerate {A : Type} (start : nat) (items : list A) : list (nat * A) :=
  match items with
  | [] => []
  | x :: rest => (start, x) :: enumerate (S start) rest
  end.

(** The columns of the sample records. *)
Definition preview_columns : list string := ["USUBJID"; "AETERM"; "AESEV"; "AESOC"].

(** The cell of a row under a named column. *)
Definition cell_of (header : list string) (row : Row) (name : string) : Cell :=
  match index_of name header with
  | Some i => cell_at i row
  | None => None
  end.

(** The preview columns a data set lacks, in the order of the preview. *)
Definition missing_preview (data : DataFrame) : list string :=
  filter (fun name => negb (has_column data name)) preview_columns.

(** [df[names]] with a list of labels: the frame restricted to these columns,
    in the order asked for; raises when a label is not a column. *)
Definition select_columns (df : DataFrame) (names : list string)
  : list string + DataFrame :=
  match filter (fun name => negb (has_column df name)) names with
  | [] => inr {| columns := names;
                 dtypes := map (dtype_of df) names;
                 rows := map (fun row => map (cell_of (columns df) row) names) (rows df) |}
  | missing => inl missing
  end.

(** [df.head()]: the first five rows. *)
Definition head (df : DataFrame) : DataFrame :=
  {| columns := columns df; dtypes := dtypes df; rows := firstn 5 (rows df) |}.

(** [display_results]: the items printed, and how the call ends. *)
Definition display_results (self : Agent) (attempt : Attempt) (question : string)
  : list Printed * (DisplayError + unit) :=
  let banner := [Rule; QuestionLine question; Rule] in
  match query self attempt question with
  | inl e => (banner ++ query_prints self attempt question, inl (QueryRaised e))
  | inr r =>
      let subject_ids := subject_ids r in
      let filtered_df := filtered_df r in
      let results :=
        banner ++ query_prints self attempt question
        ++ [ResultsHeader;
            TotalRecords (List.length (rows filtered_df));
            UniqueSubjects (count r);
            SubjectIdsHeader]
        ++ map (fun '(idx, subject_id) => SubjectLine idx subject_id)
               (enumerate 1 subject_ids) in
      if Nat.ltb 0 (List.length (rows filtered_df)) then
        match select_columns filtered_df preview_columns with
        | inl missing => (results ++ [SampleHeader], inl (NotInIndex missing))
        | inr shown => (results ++ [SampleHeader; SampleTable (head shown); Rule], inr tt)
        end
      else (results ++ [Rule], inr tt)
  end.

(** The numbered subject ids among the printed items. *)
Definition subject_lines (printed : list Printed) : list (nat * Cell) :=
  flat_map (fun item => match item with
                        | SubjectLine idx subject_id => [(idx, subject_id)]
                        | _ => []
                        end) printed.

(** The sample tables among the printed items. *)
Definition sample_tables (printed : list Printed) : list DataFrame :=
  flat_map (fun item => match item with
                        | SampleTable preview => [preview]
                        | _ => []
                        end) printed.

(** ** The test script: [run_basic_tests] of [test_agent.py] *)

Definition cardiac_question : string := "Which subjects experienced cardiac disorders?".
Definition erythema_question : string := "Show me patients with erythema".

(** The questions of [test_cases]; the expected column and value listed
    beside them are never read. *)
Definition test_cases : list string :=
  [moderate_question; cardiac_question; erythema_question].

(** One turn of the loop: display, query again, [passed = count > 0].  The
    agent runs in mock mode, where the remote attempt is not consulted. *)
Definition run_test_case (agent : Agent) (question : string) : DisplayError + bool :=
  match snd (display_results agent ImportFailed question) with
  | inl e => inl e
  | inr _ =>
      match query agent ImportFailed question with
      | inl e => inl (QueryRaised e)
      | inr r => inr (Nat.ltb 0 (count r))
      end
  end.

Fixpoint run_test_cases (agent : Agent) (questions : list string)
  : DisplayError + list bool :=
  match questions with
  | [] => inr []
  | question :: rest =>
      match run_test_case agent question with
      | inl e => inl e
      | inr passed =>
          match run_test_cases agent rest with
          | inl e => inl e
          | inr results => inr (passed :: results)
          end
      end
  end.

(** The value [run_basic_tests] returns, [passed_tests == total_tests], for
    the data set read from [adae.csv]; its own printing is left out. *)
Definition run_basic_tests (data : DataFrame) : DisplayError + bool :=
  match run_test_cases (mock_agent data) test_cases with
  | inl e => inl e
  | inr results =>
      let total_tests := List.length results in
      let passed_tests := List.length (filter (fun passed => passed) results) in
      inr (Nat.eqb passed_tests total_tests)
  end.

(** [sys.exit(0 if success else 1)] *)
Definition exit_code (success : bool) : nat := if success then 0 else 1.

(** ** The demonstration: [main] *)

(** The loop [for question in test_questions: agent.display_results(question)];
    the first exception ends it. *)
Fixpoint display_all (agent : Agent) (questions : list string)
  : list Printed * (DisplayError + unit) :=
  match questions with
  | [] => ([], inr tt)
  | question :: rest =>
      match display_results agent ImportFailed question with
      | (printed, inl e) => (printed, inl e)
      | (printed, inr _) =>
          let (printed', outcome) := display_all agent rest in
          (printed ++ printed', outcome)
      end
  end.

(** [main] on the data set read from [adae.csv]: the title, then the three
    example questions (the same three as in the test script). *)
Definition main (data : DataFrame) : list Printed * (DisplayError + unit) :=
  let agent := mock_agent data in
  let (printed, outcome) := display_all agent test_cases in
  ([Rule; SuiteTitle; Rule] ++ printed, outcome).

(** ** More vocabulary *)

(** The entry of [conditions] that no question reaches. *)
Definition shadowed_condition : string * string :=
  ("AETERM", "UPPER RESPIRATORY TRACT INFECTION").

Definition pair_eqb (p q : string * string) : bool :=
  String.eqb (fst p) (fst q) && String.eqb (snd p) (snd q).

(** Every pair the [return] statements of [_mock_llm_response] are written
    to carry, in the order of the source: line 166 writes both Y and N. *)
Definition written_pairs : list (string * string) :=
  [ ("AESEV", "MILD"); ("AESEV", "MODERATE"); ("AESEV", "SEVERE");
    ("AESOC", "CARDIAC DISORDERS");
    ("AESOC", "SKIN AND SUBCUTANEOUS TISSUE DISORDERS");
    ("AESOC", "GASTROINTESTINAL DISORDERS");
    ("AESOC", "INFECTIONS AND INFESTATIONS");
    ("AESOC", "GENERAL DISORDERS AND ADMINISTRATION SITE CONDITIONS");
    ("AETERM", "ERYTHEMA"); ("AETERM", "DIARRHOEA"); ("AETERM", "FATIGUE");
    ("AETERM", "APPLICATION SITE PRURITUS"); ("AETERM", "HEADACHE");
    ("AETERM", "NAUSEA"); ("AETERM", "HIATUS HERNIA");
    ("AETERM", "BUNDLE BRANCH BLOCK LEFT");
    ("AETERM", "UPPER RESPIRATORY TRACT INFECTION");
    ("AESER", "Y"); ("AESER", "N");
    ("AEREL", "PROBABLE"); ("AEREL", "POSSIBLE"); ("AEREL", "REMOTE"); ("AEREL", "NONE");
    ("AEOUT", "NOT RECOVERED/NOT RESOLVED"); ("AEOUT", "RECOVERED/RESOLVED") ].

(** The two written pairs that no question reaches. *)
Definition unreachable_pairs : list (string * string) :=
  [ shadowed_condition; ("AESER", "N") ].

(** The written pairs other than the two. *)
Definition reachable : list (string * string) :=
  filter (fun p => negb (existsb (pair_eqb p) unreachable_pairs)) written_pairs.

(** One question for each pair of [reachable], in the same order. *)
Definition probes : list string :=
  [ "Who had mild severity events?";
    "Give me the subjects who had Adverse events of Moderate severity";
    "Which events were severe?";
    "Which subjects experienced cardiac disorders?";
    "Show me skin disorders";
    "Which subjects had gastrointestinal adverse events?";
    "Any infection reported?";
    "Events at the administration site";
    "Show me patients with erythema";
    "Who had diarrhea?";
    "List patients with fatigue";
    "Who reported pruritus?";
    "Who had a headache?";
    "Who had nausea?";
    "Who had a hiatus hernia?";
    "Who had a bundle branch block?";
    "Any serious events?";
    "Events with a probable relationship to the drug";
    "Events with a possible relationship to the drug";
    "Events with a remote relationship to the drug";
    "Events with relationship none";
    "Which subjects had outcomes that were not resolved?";
    "Which subjects recovered?" ].

(** The same agent over another data set. *)
Definition with_data (self : Agent) (data : DataFrame) : Agent :=
  {| df := data; use_mock_llm := use_mock_llm self |}.

(** Some row of the data set has the given value (in any letter case) under
    the given column. *)
Definition has_record (data : DataFrame) (name value : string) : Prop :=
  exists i row,
    index_of name (columns data) = Some i
    /\ In row (rows data)
    /\ row_matches i value row = true.

(** Two frames stacked: the same header, the rows of the first followed by
    the rows of the second. *)
Definition stack (top bottom : DataFrame) : DataFrame :=
  {| columns := columns top; dtypes := dtypes top; rows := rows top ++ rows bottom |}.

(** A data set as [read_csv] gives it when every AESEV cell of the file is
    blank: the column is read as float64. *)
Definition blank_severity : DataFrame := {|
  columns := ["USUBJID"; "AETERM"; "AESEV"];
  dtypes := [ObjectDtype; ObjectDtype; Float64Dtype];
  rows := [ [Some "01-701-1015"; Some "ERYTHEMA"; None];
            [Some "01-701-1023"; Some "HEADACHE"; None] ]
|}.

(** The columns the three example questions are resolved on. *)
Definition filtered_columns : list string := ["AESEV"; "AESOC"; "AETERM"].

(** A data set as [read_csv] gives it when every AESOC cell of the file is
    blank. *)
Definition blank_organ_class : DataFrame := {|
  columns := ["USUBJID"; "AETERM"; "AESEV"; "AESOC"];
  dtypes := [ObjectDtype; ObjectDtype; ObjectDtype; Float64Dtype];
  rows := [ [Some "01-701-1015"; Some "ERYTHEMA"; Some "MODERATE"; None];
            [Some "01-701-1023"; Some "HEADACHE"; Some "MILD"; None] ]
|}.

(** A data set with every preview column except AESOC. *)
Definition no_organ_class : DataFrame := {|
  columns := ["USUBJID"; "AETERM"; "AESEV"];
  dtypes := [ObjectDtype; ObjectDtype; ObjectDtype];
  rows := [ [Some "01-701-1015"; Some "ERYTHEMA"; Some "MILD"];
            [Some "01-701-1023"; Some "HEADACHE"; Some "MODERATE"] ]
|}.

(** ** Proof automation *)

Ltac split_ifs :=
  repeat match goal with
         | |- context [if ?b then _ else _] => destruct b eqn:?
         end.

Ltac found :=
  match goal with
  | H : Some _ = Some _ |- _ => injection H as <-
  | H : None = Some _ |- _ => discriminate H
  end.

Ltac pick := do 2 eexists; split; [reflexivity | simpl; tauto].

Ltac each_output Hin :=
  simpl in Hin;
  repeat match type of Hin with
         | _ \/ _ => destruct Hin as [Hin|Hin]
         end; try contradiction; injection Hin as <- <-.

(** ** The source's own test questions *)

Example mock_moderate :
  _mock_llm_response moderate_question = response "AESEV" "MODERATE".
Proof. reflexivity. Qed.

Example mock_cardiac :
  _mock_llm_response "Which subjects experienced cardiac disorders?"
  = response "AESOC" "CARDIAC DISORDERS".
Proof. reflexivity. Qed.

Example mock_erythema :
  _mock_llm_response "Show me patients with erythema" = response "AETERM" "ERYTHEMA".
Proof. reflexivity. Qed.

Example mock_not_resolved :
  _mock_llm_response "Which subjects had outcomes that were not resolved?"
  = response "AEOUT" "NOT RECOVERED/NOT RESOLVED".
Proof. reflexivity. Qed.

Example sample_moderate :
  query (mock_agent sample) Raised moderate_question = inr sample_moderate_result.
Proof. reflexivity. Qed.

Example sample_unknown_column :
  query (live_agent sample) (Loaded (response "AEREL" "NONE")) ""
  = inl (KeyError "AEREL").
Proof. reflexivity. Qed.

(** ** Facts about the text primitives *)

Section TextFacts.

(** The facts of this section are stated for ASCII text, where the case
    mappings of the model are those of Python. *)






Lemma starts_with_lower (w s : string) :
  is_ascii w = true ->
  starts_with w s = true -> starts_with (lower w) (lower s) = true.
Proof.
  revert s; induction w as [|a w IH]; intros [|b s]; simpl; try easy.
  intros Hw H. apply andb_true_iff in Hw as [_ Hw].
  apply andb_true_iff in H as [Hab Hws].
  apply Ascii.eqb_eq in Hab. subst b.
  rewrite Ascii.eqb_refl. simpl. now apply IH.
Qed.

(** An ASCII keyword found in the question is found in the lowercased
    question too (for a lowercase keyword, [lower w] is [w]). *)
Lemma contains_lower (w s : string) :
  is_ascii w = true ->
  contains w s = true -> contains (lower w) (lower s) = true.
Proof.
  intros Hw. induction s as [|b s IH]; simpl; intros H.
  - apply orb_true_iff in H as [H|H]; [|discriminate].
    apply starts_with_lower in H; [|assumption]. simpl in H. now rewrite H.
  - apply orb_true_iff in H as [H|H].
    + apply (starts_with_lower w (String b s)) in H; [|assumption].
      simpl in H. now rewrite H.
    + rewrite (IH H). apply orb_true_r.
Qed.

End TextFacts.

(** ** The outputs of the resolver *)

Lemma severity_rule_codomain ql answer :
  severity_rule ql = Some answer -> in_codomain answer.
Proof. unfold severity_rule. split_ifs; intros; found; pick. Qed.

Lemma body_system_rule_codomain ql answer :
  body_system_rule ql = Some answer -> in_codomain answer.
Proof. unfold body_system_rule. split_ifs; intros; found; pick. Qed.

Lemma condition_rule_codomain ql answer :
  condition_rule ql = Some answer -> in_codomain answer.
Proof.
  unfold condition_rule, conditions, scan_conditions.
  split_ifs; intros; found; pick.
Qed.

Lemma serious_rule_value ql answer :
  serious_rule ql = Some answer -> answer = response "AESER" "Y".
Proof.
  unfold serious_rule. destruct (contains "serious" ql); [|discriminate].
  rewrite orb_true_r. now intros [= <-].
Qed.

Lemma relationship_rule_codomain ql answer :
  relationship_rule ql = Some answer -> in_codomain answer.
Proof. unfold relationship_rule. split_ifs; intros; found; pick. Qed.

Lemma outcome_rule_codomain ql answer :
  outcome_rule ql = Some answer -> in_codomain answer.
Proof. unfold outcome_rule. split_ifs; intros; found; pick. Qed.

Lemma first_match_codomain ql answer :
  first_match rules ql = Some answer -> in_codomain answer.
Proof.
  unfold rules, first_match.
  destruct (severity_rule ql) eqn:E1;
    [intros [= <-]; eauto using severity_rule_codomain|].
  destruct (body_system_rule ql) eqn:E2;
    [intros [= <-]; eauto using body_system_rule_codomain|].
  destruct (condition_rule ql) eqn:E3;
    [intros [= <-]; eauto using condition_rule_codomain|].
  destruct (serious_rule ql) eqn:E4.
  { intros [= <-]. apply serious_rule_value in E4. subst. pick. }
  destruct (relationship_rule ql) eqn:E5;
    [intros [= <-]; eauto using relationship_rule_codomain|].
  destruct (outcome_rule ql) eqn:E6;
    [intros [= <-]; eauto using outcome_rule_codomain|].
  discriminate.
Qed.

Lemma mock_in_codomain question : in_codomain (_mock_llm_response question).
Proof.
  unfold _mock_llm_response.
  destruct (first_match rules (lower question)) eqn:E.
  - eauto using first_match_codomain.
  - pick.
Qed.

Lemma response_inj c v c' v' : response c v = response c' v' -> c = c' /\ v = v'.
Proof. intros [= -> ->]. now split. Qed.

(** ** The resolver: severity precedence, seriousness, totality *)

(** C2. If the lowercased question contains a severity trigger word and
    exactly one of the level words mild, moderate, severe, the resolver
    answers column AESEV with that level word in upper case, whatever other
    keywords the question holds. *)
Theorem severity_has_precedence (question level : string) :
  any_in severity_triggers (lower question) = true ->
  In level severity_levels ->
  contains level (lower question) = true ->
  (forall other, In other severity_levels ->
                 contains other (lower question) = true -> other = level) ->
  _mock_llm_response question = response "AESEV" (upper level).
Proof.
  intros Htrig Hlevel Hin Hone.
  unfold _mock_llm_response, rules, first_match, severity_rule.
  rewrite Htrig.
  assert (Hmild : level <> "mild" -> contains "mild" (lower question) = false).
  { intros Hne. destruct (contains "mild" (lower question)) eqn:E; [|reflexivity].
    exfalso. apply Hne. symmetry. apply Hone; simpl; auto. }
  assert (Hmod : level <> "moderate" -> contains "moderate" (lower question) = false).
  { intros Hne. destruct (contains "moderate" (lower question)) eqn:E; [|reflexivity].
    exfalso. apply Hne. symmetry. apply Hone; simpl; auto. }
  simpl in Hlevel. destruct Hlevel as [<-|[<-|[<-|[]]]].
  - now rewrite Hin.
  - rewrite Hmild by discriminate. now rewrite Hin.
  - rewrite Hmild, Hmod by discriminate. now rewrite Hin.
Qed.

Lemma severity_has_precedence_witness :
  _mock_llm_response "Any serious cardiac events of Moderate severity?"
  = response "AESEV" "MODERATE".
Proof.
  apply (severity_has_precedence
           "Any serious cardiac events of Moderate severity?" "moderate").
  - reflexivity.
  - simpl; auto.
  - reflexivity.
  - intros other [<-|[<-|[<-|[]]]]; [discriminate | reflexivity | discriminate].
Defined.

(** The trigger hypothesis may equally be read on the question as typed. *)
Lemma trigger_in_question (question : string) :
  any_in severity_triggers question = true ->
  any_in severity_triggers (lower question) = true.
Proof.
  unfold any_in, severity_triggers. simpl.
  rewrite !orb_false_r, !orb_true_iff.
  intros H.
  repeat match type of H with
         | _ \/ _ => destruct H as [H|H]
         end;
    (apply contains_lower in H; [|reflexivity]); simpl in H;
    change (lower_char ?c) with c in H;
    auto.
Qed.

(** C3. When the seriousness rule fires (the lowercased question contains
    serious and no severity, body-system or condition rule matched), the
    resolver answers column AESER with value Y if the question contains yes
    or serious and N otherwise; that value is always Y, and no question at
    all is answered with AESER = N. *)
Theorem seriousness_is_always_Y :
  (forall question,
      let question_lower := lower question in
      contains "serious" question_lower = true ->
      severity_rule question_lower = None ->
      body_system_rule question_lower = None ->
      condition_rule question_lower = None ->
      _mock_llm_response question
      = response "AESER"
          (if contains "yes" question_lower || contains "serious" question_lower
           then "Y" else "N")
      /\ _mock_llm_response question = response "AESER" "Y")
  /\ (forall question, _mock_llm_response question <> response "AESER" "N").
Proof.
  split.
  - intros question ql Hser Hsev Hbody Hcond. subst ql.
    unfold _mock_llm_response, rules, first_match.
    rewrite Hsev, Hbody, Hcond. unfold serious_rule.
    rewrite Hser, orb_true_r. split; reflexivity.
  - intros question Heq.
    destruct (mock_in_codomain question) as (c & v & Hcv & Hin).
    rewrite Hcv in Heq. apply response_inj in Heq as [-> ->].
    simpl in Hin.
    repeat match type of Hin with
           | _ \/ _ => destruct Hin as [Hin|Hin]
           end; try discriminate Hin; contradiction.
Qed.

Lemma seriousness_is_always_Y_witness :
  _mock_llm_response "Were there any SERIOUS events? no" = response "AESER" "Y".
Proof.
  apply (proj1 seriousness_is_always_Y "Were there any SERIOUS events? no");
    reflexivity.
Defined.

(** C6. The resolver answers every question, the empty one included, with a
    well-formed pair; a question on which no rule returns, and the empty
    question in particular, gets the default AESEV = MILD. *)
Theorem resolver_is_total :
  (forall question, well_formed (_mock_llm_response question))
  /\ (forall question,
         (forall rule, In rule rules -> rule (lower question) = None) ->
         _mock_llm_response question = response "AESEV" "MILD")
  /\ _mock_llm_response "" = response "AESEV" "MILD".
Proof.
  split; [|split].
  - intros question.
    destruct (mock_in_codomain question) as (c & v & -> & Hin).
    exists c, v. split; [reflexivity|].
    simpl in Hin.
    repeat match type of Hin with
           | _ \/ _ => destruct Hin as [Hin|Hin]
           end; try contradiction;
      injection Hin as <- <-; (split; [simpl; tauto | discriminate]).
  - intros question Hnone.
    unfold _mock_llm_response.
    assert (H : forall rs, (forall rule, In rule rs -> rule (lower question) = None) ->
                           first_match rs (lower question) = None).
    { induction rs as [|r rs IH]; intros Hrs; simpl; [reflexivity|].
      rewrite (Hrs r) by (simpl; auto). apply IH. intros; apply Hrs; simpl; auto. }
    now rewrite (H rules Hnone).
  - reflexivity.
Qed.

Lemma resolver_is_total_witness :
  _mock_llm_response "How many subjects took part?" = response "AESEV" "MILD".
Proof.
  apply (proj1 (proj2 resolver_is_total) "How many subjects took part?").
  intros rule Hin. simpl in Hin.
  repeat match type of Hin with
         | _ \/ _ => destruct Hin as [Hin|Hin]
         end; try contradiction; subst rule; reflexivity.
Defined.

(** C9. Every filter value the resolver emits is already upper case, so on
    a rule-resolved query comparing the uppercased cells with
    [filter_value.upper()] is comparing them with [filter_value] itself. *)
Theorem resolver_values_are_uppercase (question c v : string) :
  _mock_llm_response question = response c v ->
  upper v = v
  /\ (forall cell : string,
         String.eqb (upper cell) (upper v) = String.eqb (upper cell) v)
  /\ (forall series : Series,
         eq_scalar (str_upper series) (upper v) = eq_scalar (str_upper series) v).
Proof.
  intros Hq.
  assert (Hup : upper v = v).
  { destruct (mock_in_codomain question) as (c' & v' & Hcv & Hin).
    rewrite Hcv in Hq. apply response_inj in Hq as [-> ->].
    each_output Hin; reflexivity. }
  rewrite Hup. repeat split; reflexivity.
Qed.

Lemma resolver_values_are_uppercase_witness :
  upper "SKIN AND SUBCUTANEOUS TISSUE DISORDERS"
  = "SKIN AND SUBCUTANEOUS TISSUE DISORDERS".
Proof.
  apply (resolver_values_are_uppercase
           "Show me skin disorders" "AESOC" "SKIN AND SUBCUTANEOUS TISSUE DISORDERS").
  reflexivity.
Defined.

(** C10. The column the resolver emits is always one of the six columns
    AESEV, AESOC, AETERM, AESER, AEREL, AEOUT, each of which some question
    reaches; AEBODSYS, although filterable, is never emitted. *)
Theorem resolver_emits_six_columns :
  (forall question c v,
      _mock_llm_response question = response c v -> In c resolver_columns)
  /\ (forall c, In c resolver_columns ->
                exists question v, _mock_llm_response question = response c v)
  /\ NoDup resolver_columns /\ List.length resolver_columns = 6
  /\ In "AEBODSYS" filterable_columns
  /\ (forall question v, _mock_llm_response question <> response "AEBODSYS" v).
Proof.
  assert (Hsix : forall question c v,
             _mock_llm_response question = response c v -> In c resolver_columns).
  { intros question c v Hq.
    destruct (mock_in_codomain question) as (c' & v' & Hcv & Hin).
    rewrite Hcv in Hq. apply response_inj in Hq as [-> ->].
    each_output Hin; simpl; tauto. }
  split; [exact Hsix|]. split; [|split; [|split; [|split]]].
  - intros c Hc. simpl in Hc.
    destruct Hc as [<-|[<-|[<-|[<-|[<-|[<-|[]]]]]]].
    + exists "Who had mild severity events?"; eexists; reflexivity.
    + exists "Which subjects experienced cardiac disorders?"; eexists; reflexivity.
    + exists "Show me patients with erythema"; eexists; reflexivity.
    + exists "Any serious events?"; eexists; reflexivity.
    + exists "Events possibly related to the drug: possible"; eexists; reflexivity.
    + exists "Which subjects had outcomes that were not resolved?"; eexists; reflexivity.
  - repeat constructor; simpl; intuition discriminate.
  - reflexivity.
  - simpl; tauto.
  - intros question v Hq. apply Hsix in Hq. simpl in Hq.
    intuition discriminate.
Qed.

Lemma resolver_emits_six_columns_witness :
  In "AETERM" resolver_columns.
Proof.
  apply (proj1 resolver_emits_six_columns
           "List patients with fatigue" "AETERM" "FATIGUE").
  reflexivity.
Defined.

(** ** Facts about series and data frames *)

Section SeriesFacts.

Lemma cell_eqb_eq (a b : Cell) : cell_eqb a b = true <-> a = b.
Proof.
  destruct a as [x|], b as [y|]; simpl; try (split; congruence).
  rewrite String.eqb_eq. split; congruence.
Qed.

Lemma cell_eqb_refl (a : Cell) : cell_eqb a a = true.
Proof. now apply cell_eqb_eq. Qed.

Lemma seen_spec (c : Cell) (seen : list Cell) :
  existsb (cell_eqb c) seen = true <-> In c seen.
Proof.
  rewrite existsb_exists. split.
  - intros (y & Hy & E). apply cell_eqb_eq in E. now subst.
  - intros H. exists c. split; [assumption | apply cell_eqb_refl].
Qed.

Lemma unique_from_In (x : Cell) (s : Series) :
  forall seen, In x (unique_from seen s) <-> In x s /\ ~ In x seen.
Proof.
  induction s as [|c s IH]; intros seen; simpl.
  - tauto.
  - destruct (existsb (cell_eqb c) seen) eqn:E.
    + apply seen_spec in E. rewrite IH. split.
      * tauto.
      * intros [[->|H] Hn]; [contradiction | tauto].
    + assert (Hc : ~ In c seen) by (rewrite <- seen_spec; congruence).
      simpl. rewrite IH. simpl. split.
      * intros [->|[H Hn]]; [tauto|]. split; [tauto|]. intros Hx. apply Hn. now right.
      * intros [[->|H] Hn]; [now left|].
        destruct (cell_eqb c x) eqn:Ecx.
        -- apply cell_eqb_eq in Ecx. now left.
        -- right. split; [assumption|]. intros [->|Hx]; [|contradiction].
           rewrite cell_eqb_refl in Ecx. discriminate.
Qed.

Lemma unique_from_NoDup (s : Series) : forall seen, NoDup (unique_from seen s).
Proof.
  induction s as [|c s IH]; intros seen; simpl.
  - constructor.
  - destruct (existsb (cell_eqb c) seen); [apply IH|].
    constructor; [|apply IH].
    rewrite unique_from_In. simpl. tauto.
Qed.

Lemma unique_from_length (s : Series) :
  forall seen, List.length (unique_from seen s) <= List.length s.
Proof.
  induction s as [|c s IH]; intros seen; simpl.
  - lia.
  - destruct (existsb (cell_eqb c) seen); simpl.
    + specialize (IH seen). lia.
    + specialize (IH (c :: seen)). lia.
Qed.

Lemma first_index_skip (x c : Cell) (s : Series) :
  x <> c -> first_index x (c :: s) = S (first_index x s).
Proof.
  intros Hne. simpl. destruct (cell_eqb x c) eqn:E; [|reflexivity].
  apply cell_eqb_eq in E. contradiction.
Qed.

Lemma sorted_shift (s : Series) (c : Cell) (l : list Cell) :
  (forall x, In x l -> x <> c) ->
  StronglySorted lt (map (fun x => first_index x s) l) ->
  StronglySorted lt (map (fun x => first_index x (c :: s)) l).
Proof.
  induction l as [|a l IH]; intros Hne Hs; cbn [map] in *.
  - constructor.
  - inversion Hs as [|? ? Hl Ha]; subst.
    constructor.
    + apply IH; [|assumption]. intros x Hx. apply Hne. now right.
    + rewrite Forall_map in *. rewrite Forall_forall in *.
      intros x Hx.
      rewrite !first_index_skip by (apply Hne; simpl; auto).
      specialize (Ha x Hx). lia.
Qed.

(** [unique] lists the values by increasing position of first appearance. *)
Lemma unique_from_first_seen (s : Series) :
  forall seen,
    StronglySorted lt (map (fun x => first_index x s) (unique_from seen s)).
Proof.
  induction s as [|c s IH]; intros seen.
  - constructor.
  - cbn [unique_from]. destruct (existsb (cell_eqb c) seen) eqn:E.
    + apply seen_spec in E. apply sorted_shift; [|apply IH].
      intros x Hx. apply unique_from_In in Hx. intros ->. tauto.
    + cbn [map]. constructor.
      * apply sorted_shift; [|apply IH].
        intros x Hx. apply unique_from_In in Hx. simpl in Hx. intros ->. tauto.
      * rewrite Forall_map, Forall_forall. intros x Hx.
        apply unique_from_In in Hx. simpl in Hx.
        rewrite (first_index_skip x c) by (intros ->; tauto).
        cbn [first_index]. rewrite cell_eqb_refl. lia.
Qed.

Lemma unique_In (x : Cell) (s : Series) : In x (unique s) <-> In x s.
Proof. unfold unique. rewrite unique_from_In. simpl. tauto. Qed.

(** The mask computed by the source selects the rows of [row_matches]. *)
Lemma select_is_filter (i : nat) (value : string) (rs : list Row) :
  select (eq_scalar (str_upper (map (cell_at i) rs)) (upper value)) rs
  = filter (row_matches i value) rs.
Proof.
  induction rs as [|r rs IH]; simpl; [reflexivity|].
  unfold row_matches at 1. destruct (cell_at i r); simpl; now rewrite IH.
Qed.

End SeriesFacts.

(** ** Facts about [run_filter] *)

Section RunFilter.

Variable df : DataFrame.
Variables target_column filter_value : string.

Lemma run_filter_ok (i u : nat) :
  index_of target_column (columns df) = Some i ->
  dtype_of df target_column = ObjectDtype ->
  index_of "USUBJID" (columns df) = Some u ->
  run_filter df target_column filter_value = inr (filtered_result df filter_value i u).
Proof.
  intros Hi Ht Hu. unfold run_filter, column, boolean_index.
  rewrite Ht. cbn [columns rows str].
  rewrite Hi. cbn [bind ret]. rewrite Hu. cbn [bind ret].
  now rewrite select_is_filter.
Qed.

Lemma run_filter_no_column :
  index_of target_column (columns df) = None ->
  run_filter df target_column filter_value = inl (KeyError target_column).
Proof. intros Hi. unfold run_filter, column. now rewrite Hi. Qed.

(** A column that is there but is not of dtype object has no [.str]. *)
Lemma run_filter_not_text (i : nat) :
  index_of target_column (columns df) = Some i ->
  dtype_of df target_column <> ObjectDtype ->
  run_filter df target_column filter_value = inl AttributeError.
Proof.
  intros Hi Ht. unfold run_filter, column. rewrite Hi. cbn [bind ret].
  destruct (dtype_of df target_column); [contradiction | | |]; reflexivity.
Qed.

Lemma run_filter_no_subject (i : nat) :
  index_of target_column (columns df) = Some i ->
  dtype_of df target_column = ObjectDtype ->
  index_of "USUBJID" (columns df) = None ->
  run_filter df target_column filter_value = inl (KeyError "USUBJID").
Proof.
  intros Hi Ht Hu. unfold run_filter, column, boolean_index.
  rewrite Ht. cbn [columns rows str].
  rewrite Hi. cbn [bind ret]. now rewrite Hu.
Qed.

Lemma dtype_eq_dec (d : Dtype) : {d = ObjectDtype} + {d <> ObjectDtype}.
Proof. destruct d; [left; reflexivity | right | right | right]; discriminate. Qed.

Lemma run_filter_text (r : QueryResult) :
  run_filter df target_column filter_value = inr r ->
  dtype_of df target_column = ObjectDtype.
Proof.
  intros Hr.
  destruct (index_of target_column (columns df)) as [i|] eqn:Hi;
    [|rewrite run_filter_no_column in Hr by assumption; discriminate].
  destruct (dtype_eq_dec (dtype_of df target_column)) as [Ht|Ht]; [assumption|].
  rewrite (run_filter_not_text i) in Hr by assumption. discriminate.
Qed.

Lemma run_filter_inv (r : QueryResult) :
  run_filter df target_column filter_value = inr r ->
  exists i u,
    index_of target_column (columns df) = Some i
    /\ index_of "USUBJID" (columns df) = Some u
    /\ r = filtered_result df filter_value i u.
Proof.
  intros Hr. pose proof (run_filter_text r Hr) as Ht.
  destruct (index_of target_column (columns df)) as [i|] eqn:Hi;
    [|rewrite run_filter_no_column in Hr by assumption; discriminate].
  destruct (index_of "USUBJID" (columns df)) as [u|] eqn:Hu;
    [|rewrite (run_filter_no_subject i) in Hr by assumption; discriminate].
  rewrite (run_filter_ok i u) in Hr by assumption.
  exists i, u. repeat split; congruence.
Qed.

End RunFilter.


(** ** From the parsed query to the filter *)

(** Once the classification step has produced the pair (c, v), [query] is
    the filter run on the agent's data set. *)
Lemma query_parsed (self : Agent) (attempt : Attempt) (question c v : string) :
  _call_llm self attempt question = response c v ->
  query self attempt question = run_filter (df self) c v.
Proof. intros H. unfold query. now rewrite H. Qed.

(** Any pair can be the parsed query: a remote reply of that shape. *)
Lemma loaded_parsed (data : DataFrame) (question c v : string) :
  _call_llm (live_agent data) (Loaded (response c v)) question = response c v.
Proof. reflexivity. Qed.

(** When the import fails or the [try] block raises, [_call_llm] returns
    what the rule engine says. *)
Lemma raised_attempt_falls_back (self : Agent) (question : string) :
  _call_llm self ImportFailed question = _mock_llm_response question
  /\ _call_llm self Raised question = _mock_llm_response question.
Proof. unfold _call_llm. destruct (use_mock_llm self); split; reflexivity. Qed.

(** With the rule engine switched on, the remote attempt is never looked at. *)
Lemma mock_mode_ignores_attempt (self : Agent) (attempt : Attempt) (question : string) :
  use_mock_llm self = true ->
  _call_llm self attempt question = _mock_llm_response question.
Proof. unfold _call_llm. now intros ->. Qed.

Lemma has_column_true (df : DataFrame) (name : string) :
  has_column df name = true -> exists i, index_of name (columns df) = Some i.
Proof.
  unfold has_column. destruct (index_of name (columns df)) as [i|]; [eauto|discriminate].
Qed.

Lemma has_column_false (df : DataFrame) (name : string) :
  has_column df name = false -> index_of name (columns df) = None.
Proof.
  unfold has_column. destruct (index_of name (columns df)); [discriminate|reflexivity].
Qed.

Lemma is_text_true (df : DataFrame) (name : string) :
  is_text df name = true ->
  exists i, index_of name (columns df) = Some i /\ dtype_of df name = ObjectDtype.
Proof.
  unfold is_text. intros H. apply andb_true_iff in H as [Hc Ht].
  apply has_column_true in Hc as [i Hi]. exists i. split; [assumption|].
  destruct (dtype_of df name); [reflexivity | | |]; discriminate.
Qed.

Lemma is_text_false (df : DataFrame) (name : string) :
  has_column df name = true -> is_text df name = false ->
  dtype_of df name <> ObjectDtype.
Proof.
  unfold is_text. intros -> Ht Hd. rewrite Hd in Ht. discriminate.
Qed.

Lemma is_text_intro (df : DataFrame) (name : string) (i : nat) :
  index_of name (columns df) = Some i -> dtype_of df name = ObjectDtype ->
  is_text df name = true.
Proof.
  intros Hi Hd. unfold is_text, has_column. now rewrite Hi, Hd.
Qed.

(** ** The filter executor: result contract, errors, missing cells, case *)

Section Query.

Variable self : Agent.
Variable attempt : Attempt.
Variable question : string.

(** The parsed query of this call. *)
Variables c v : string.
Hypothesis parsed : _call_llm self attempt question = response c v.

(** C1. Whatever [query] returns for a data set and a parsed query
    (column, value): the matched rows are exactly the rows of the data set
    that match, in their original order; the subject ids are the distinct
    USUBJID values of the matched rows, in order of first appearance; the
    count is the number of those ids and is at most the number of matched
    rows. *)
Theorem query_result_contract (r : QueryResult) :
  query self attempt question = inr r ->
  exists i u,
    index_of c (columns (df self)) = Some i
    /\ index_of "USUBJID" (columns (df self)) = Some u
    /\ columns (filtered_df r) = columns (df self)
    /\ rows (filtered_df r) = filter (row_matches i v) (rows (df self))
    /\ (let seen := map (cell_at u) (rows (filtered_df r)) in
        NoDup (subject_ids r)
        /\ (forall x, In x (subject_ids r) <-> In x seen)
        /\ StronglySorted lt (map (fun x => first_index x seen) (subject_ids r)))
    /\ count r = List.length (subject_ids r)
    /\ count r <= List.length (rows (filtered_df r)).
Proof.
  rewrite (query_parsed _ _ _ _ _ parsed).
  intros Hr. apply run_filter_inv in Hr as (i & u & Hi & Hu & ->).
  exists i, u. unfold filtered_result.
  cbn [count subject_ids filtered_df columns rows].
  repeat split; try assumption.
  - apply unique_from_NoDup.
  - apply unique_In.
  - apply unique_In.
  - apply unique_from_first_seen.
  - unfold unique.
    etransitivity; [apply unique_from_length|]. now rewrite length_map.
Qed.

(** C4, amended. On a data set that has a USUBJID column: a parsed query
    whose column is not in the data set makes [query] raise the KeyError of
    that column; a parsed query whose column is present but not of dtype
    object makes it raise AttributeError; these are the only errors; a
    parsed query whose column is a text column never fails, and when no row
    matches the result is the empty one with count 0. *)
Theorem invalid_column_is_the_only_error :
  has_column (df self) "USUBJID" = true ->
  (has_column (df self) c = false ->
   query self attempt question = inl (KeyError c))
  /\ (has_column (df self) c = true -> is_text (df self) c = false ->
      query self attempt question = inl AttributeError)
  /\ (forall e, query self attempt question = inl e ->
                (e = KeyError c /\ has_column (df self) c = false)
                \/ (e = AttributeError /\ has_column (df self) c = true
                    /\ is_text (df self) c = false))
  /\ (is_text (df self) c = true ->
      exists r, query self attempt question = inr r
                /\ (rows (filtered_df r) = [] ->
                    count r = 0 /\ subject_ids r = [])).
Proof.
  rewrite (query_parsed _ _ _ _ _ parsed).
  intros Hsubj. apply has_column_true in Hsubj as [u Hu].
  assert (Habsent : has_column (df self) c = false ->
                    run_filter (df self) c v = inl (KeyError c)).
  { intros Hc. apply run_filter_no_column. now apply has_column_false. }
  assert (Hother : has_column (df self) c = true -> is_text (df self) c = false ->
                   run_filter (df self) c v = inl AttributeError).
  { intros Hc Ht. destruct (has_column_true _ _ Hc) as [i Hi].
    apply (run_filter_not_text _ _ _ i Hi). now apply is_text_false. }
  assert (Htext : is_text (df self) c = true ->
                  exists r, run_filter (df self) c v = inr r
                            /\ (rows (filtered_df r) = [] ->
                                count r = 0 /\ subject_ids r = [])).
  { intros Ht. apply is_text_true in Ht as (i & Hi & Ht).
    exists (filtered_result (df self) v i u). split; [now apply run_filter_ok|].
    unfold filtered_result. cbn [count subject_ids filtered_df rows].
    intros ->. split; reflexivity. }
  split; [exact Habsent|]. split; [exact Hother|]. split; [|exact Htext].
  intros e He.
  destruct (has_column (df self) c) eqn:Hc.
  - destruct (is_text (df self) c) eqn:Ht.
    + destruct (Htext eq_refl) as (r & Hr & _). congruence.
    + right. rewrite (Hother eq_refl eq_refl) in He. repeat split; congruence.
  - left. rewrite (Habsent eq_refl) in He. split; congruence.
Qed.

(** C5, amended. In a column of dtype object a row whose cell in the
    filtered column is missing is a no-match and does not make [query]
    fail: its mask entry is [false], it is never among the matched rows,
    and [query] returns exactly when the header has USUBJID.  On a column
    of another dtype [query] raises AttributeError whatever the cells
    hold. *)
Theorem missing_cells_never_match (i : nat) (row : Row) :
  index_of c (columns (df self)) = Some i ->
  In row (rows (df self)) ->
  cell_at i row = None ->
  eq_scalar (str_upper [cell_at i row]) (upper v) = [false]
  /\ (forall r, query self attempt question = inr r ->
                ~ In row (rows (filtered_df r)))
  /\ (is_text (df self) c = true ->
      ((exists r, query self attempt question = inr r)
       <-> has_column (df self) "USUBJID" = true))
  /\ (is_text (df self) c = false ->
      query self attempt question = inl AttributeError).
Proof.
  rewrite (query_parsed _ _ _ _ _ parsed).
  intros Hi Hrow Hcell. split; [|split; [|split]].
  - now rewrite Hcell.
  - intros r Hr Hin.
    apply run_filter_inv in Hr as (i' & u & Hi' & Hu & ->).
    assert (i' = i) by congruence. subst i'.
    unfold filtered_result in Hin. cbn [filtered_df rows] in Hin.
    apply filter_In in Hin as [_ Hm].
    unfold row_matches in Hm. rewrite Hcell in Hm. discriminate.
  - intros Ht. apply is_text_true in Ht as (i' & _ & Ht).
    unfold has_column. split.
    + intros [r Hr]. apply run_filter_inv in Hr as (_ & u & _ & Hu & _).
      now rewrite Hu.
    + destruct (index_of "USUBJID" (columns (df self))) as [u|] eqn:Hu;
        [|discriminate].
      intros _. exists (filtered_result (df self) v i u). now apply run_filter_ok.
  - intros Ht. apply (run_filter_not_text _ _ _ i Hi).
    apply is_text_false; [|assumption]. unfold has_column. now rewrite Hi.
Qed.


End Query.

Lemma query_result_contract_witness :
  exists i u,
    index_of "AESEV" (columns sample) = Some i
    /\ index_of "USUBJID" (columns sample) = Some u
    /\ columns sample = columns sample
    /\ sample_moderate_rows = filter (row_matches i "MODERATE") (rows sample)
    /\ (let seen := map (cell_at u) sample_moderate_rows in
        NoDup [Some "01-701-1023"; Some "01-701-1028"]
        /\ (forall x, In x [Some "01-701-1023"; Some "01-701-1028"] <-> In x seen)
        /\ StronglySorted lt
             (map (fun x => first_index x seen)
                  [Some "01-701-1023"; Some "01-701-1028"]))
    /\ 2 = 2
    /\ 2 <= List.length sample_moderate_rows.
Proof.
  apply (query_result_contract (mock_agent sample) Raised moderate_question
           "AESEV" "MODERATE" eq_refl sample_moderate_result).
  reflexivity.
Defined.

(** C4 as stated fails twice over: the column of the parsed query is
    present, yet [query] raises, with the KeyError of another column on a
    data set without USUBJID, and with AttributeError on a data set whose
    filtered column is not a text column. *)
Lemma present_column_can_fail :
  (_call_llm (mock_agent no_subject_column) Raised "Who had mild severity events?"
   = response "AESEV" "MILD"
   /\ has_column no_subject_column "AESEV" = true
   /\ query (mock_agent no_subject_column) Raised "Who had mild severity events?"
      = inl (KeyError "USUBJID"))
  /\ (_call_llm (mock_agent blank_severity) Raised "Who had mild severity events?"
      = response "AESEV" "MILD"
      /\ has_column blank_severity "AESEV" = true
      /\ has_column blank_severity "USUBJID" = true
      /\ query (mock_agent blank_severity) Raised "Who had mild severity events?"
         = inl AttributeError).
Proof. repeat split. Qed.

Lemma invalid_column_is_the_only_error_witness :
  query (live_agent sample) (Loaded (response "AEREL" "NONE")) ""
  = inl (KeyError "AEREL")
  /\ query (live_agent blank_severity) (Loaded (response "AESEV" "MILD")) ""
     = inl AttributeError
  /\ exists r,
       query (live_agent sample) (Loaded (response "AESEV" "LETHAL")) "" = inr r
       /\ (rows (filtered_df r) = [] -> count r = 0 /\ subject_ids r = []).
Proof.
  split; [|split].
  - apply (proj1 (invalid_column_is_the_only_error
                    (live_agent sample) (Loaded (response "AEREL" "NONE")) ""
                    "AEREL" "NONE" eq_refl eq_refl)).
    reflexivity.
  - apply (proj1 (proj2 (invalid_column_is_the_only_error
                           (live_agent blank_severity)
                           (Loaded (response "AESEV" "MILD")) ""
                           "AESEV" "MILD" eq_refl eq_refl)));
      reflexivity.
  - apply (proj2 (proj2 (proj2 (invalid_column_is_the_only_error
                                  (live_agent sample)
                                  (Loaded (response "AESEV" "LETHAL")) ""
                                  "AESEV" "LETHAL" eq_refl eq_refl)))).
    reflexivity.
Defined.

(** A present column and no matching row: the empty result, count 0. *)
Example sample_no_match :
  query (live_agent sample) (Loaded (response "AESEV" "LETHAL")) ""
  = inr {| count := 0; subject_ids := [];
           filtered_df := {| columns := columns sample; dtypes := dtypes sample;
                             rows := [] |} |}.
Proof. reflexivity. Qed.

(** C5 as stated fails: in the data set whose AESEV cells are all missing
    the column is there, USUBJID is there, and [query] raises; with text
    in the column the same question is answered. *)
Lemma missing_cells_can_fail :
  _call_llm (mock_agent blank_severity) Raised "Who had mild severity events?"
  = response "AESEV" "MILD"
  /\ index_of "AESEV" (columns blank_severity) = Some 2
  /\ map (cell_at 2) (rows blank_severity) = [None; None]
  /\ has_column blank_severity "USUBJID" = true
  /\ query (mock_agent blank_severity) Raised "Who had mild severity events?"
     = inl AttributeError
  /\ columns no_organ_class = columns blank_severity
  /\ exists r,
       query (mock_agent no_organ_class) Raised "Who had mild severity events?"
       = inr r.
Proof. repeat split. eexists. reflexivity. Qed.

Lemma missing_cells_never_match_witness :
  eq_scalar (str_upper [cell_at 2 (nth 2 (rows sample) [])]) (upper "MILD") = [false]
  /\ (forall r,
         query (mock_agent sample) Raised "Who had mild severity events?" = inr r ->
         ~ In (nth 2 (rows sample) []) (rows (filtered_df r)))
  /\ (is_text sample "AESEV" = true ->
      ((exists r,
           query (mock_agent sample) Raised "Who had mild severity events?" = inr r)
       <-> has_column sample "USUBJID" = true))
  /\ (is_text sample "AESEV" = false ->
      query (mock_agent sample) Raised "Who had mild severity events?"
      = inl AttributeError).
Proof.
  apply (missing_cells_never_match
           (mock_agent sample) Raised "Who had mild severity events?"
           "AESEV" "MILD" eq_refl 2 (nth 2 (rows sample) [])).
  - reflexivity.
  - simpl; tauto.
  - reflexivity.
Defined.


(** The cell Moderate is matched by MODERATE and by moderate alike. *)
Example moderate_in_any_case :
  row_matches 2 "MODERATE" (nth 1 (rows sample) []) = true
  /\ row_matches 2 "moderate" (nth 1 (rows sample) []) = true.
Proof. split; reflexivity. Qed.

(** ** The remote classifier boundary *)

(** C8. The code at a reply that [json.loads] accepts but that lacks the
    two expected fields: [_call_llm] hands the reply on as it is, not the
    rule engine's answer, the value is no parsed query, and [query] raises
    KeyError on its first field access. *)
Theorem misshapen_reply_is_not_replaced :
  _call_llm (live_agent sample) (Loaded misshapen_reply) moderate_question
  = misshapen_reply
  /\ _mock_llm_response moderate_question = response "AESEV" "MODERATE"
  /\ _call_llm (live_agent sample) (Loaded misshapen_reply) moderate_question
     <> _mock_llm_response moderate_question
  /\ ~ well_formed
       (_call_llm (live_agent sample) (Loaded misshapen_reply) moderate_question)
  /\ query (live_agent sample) (Loaded misshapen_reply) moderate_question
     = inl (KeyError "target_column").
Proof.
  split; [reflexivity|]. split; [reflexivity|]. split; [|split].
  - discriminate.
  - intros (c & v & H & _). discriminate H.
  - reflexivity.
Qed.

(** ** More facts about the text primitives *)

Section Substrings.

Local Open Scope string_scope.

Lemma starts_with_spec (w s : string) :
  starts_with w s = true <-> exists rest, s = w ++ rest.
Proof.
  revert s. induction w as [|a w IH]; intros s; simpl.
  - split; [intros _; now exists s | reflexivity].
  - destruct s as [|b s].
    + split; [discriminate | intros [rest H]; discriminate].
    + rewrite andb_true_iff, Ascii.eqb_eq, IH. split.
      * intros [-> [rest ->]]. now exists rest.
      * intros [rest [= -> ->]]. split; [reflexivity | now exists rest].
Qed.

(** [contains w s] holds exactly when [s] is some text, then [w], then
    some text. *)
Lemma contains_spec (w s : string) :
  contains w s = true <-> exists before after, s = before ++ w ++ after.
Proof.
  induction s as [|b s IH].
  - simpl. rewrite orb_false_r, starts_with_spec. split.
    + intros [rest H]. now exists "", rest.
    + intros (before & after & H). destruct before; [|discriminate].
      now exists after.
  - cbn [contains]. rewrite orb_true_iff, IH, starts_with_spec. split.
    + intros [[rest H] | (before & after & ->)].
      * now exists "", rest.
      * now exists (String b before), after.
    + intros (before & after & H). destruct before as [|b' before].
      * left. now exists after.
      * right. injection H as -> ->. now exists before, after.
Qed.

Lemma append_assoc (a b c : string) : (a ++ b) ++ c = a ++ (b ++ c).
Proof. induction a as [|x a IH]; simpl; [reflexivity | now rewrite IH]. Qed.

(** A word inside a word inside the text is inside the text. *)
Lemma contains_trans (inner outer s : string) :
  contains inner outer = true -> contains outer s = true ->
  contains inner s = true.
Proof.
  rewrite !contains_spec.
  intros (b1 & a1 & ->) (b2 & a2 & ->).
  exists (b2 ++ b1), (a1 ++ a2).
  now rewrite !append_assoc.
Qed.

(** Text around a question does not hide a word the question holds. *)
Lemma contains_extend (w before s after : string) :
  contains w s = true -> contains w (before ++ s ++ after) = true.
Proof.
  rewrite !contains_spec. intros (b & a & ->).
  exists (before ++ b), (a ++ after). now rewrite !append_assoc.
Qed.

(** The model's [lower] works character by character. *)
Lemma lower_app (a b : string) : lower (a ++ b) = lower a ++ lower b.
Proof. induction a as [|x a IH]; simpl; [reflexivity | now rewrite IH]. Qed.

Lemma any_in_true (words : list string) (w s : string) :
  In w words -> contains w s = true -> any_in words s = true.
Proof. intros Hin Hc. unfold any_in. apply existsb_exists. eauto. Qed.

Lemma any_in_extend (words : list string) (before s after : string) :
  any_in words s = true -> any_in words (before ++ s ++ after) = true.
Proof.
  unfold any_in. rewrite !existsb_exists. intros (w & Hin & Hc).
  exists w. split; [assumption | now apply contains_extend].
Qed.

End Substrings.

(** ** More about the resolver *)

Section RuleColumns.

Variable ql : string.
Variable answer : Json.

Lemma severity_rule_column :
  severity_rule ql = Some answer ->
  In answer [response "AESEV" "MILD"; response "AESEV" "MODERATE";
             response "AESEV" "SEVERE"].
Proof. unfold severity_rule. split_ifs; intros; found; simpl; tauto. Qed.

Lemma body_system_rule_column :
  body_system_rule ql = Some answer -> exists v, answer = response "AESOC" v.
Proof. unfold body_system_rule. split_ifs; intros; found; eauto. Qed.

Lemma relationship_rule_column :
  relationship_rule ql = Some answer -> exists v, answer = response "AEREL" v.
Proof. unfold relationship_rule. split_ifs; intros; found; eauto. Qed.

Lemma outcome_rule_column :
  outcome_rule ql = Some answer -> exists v, answer = response "AEOUT" v.
Proof. unfold outcome_rule. split_ifs; intros; found; eauto. Qed.

(** Only the last key of the table maps to the respiratory infection term. *)
Lemma condition_rule_respiratory :
  condition_rule ql = Some (response "AETERM" "UPPER RESPIRATORY TRACT INFECTION") ->
  contains "respiratory infection" ql = true.
Proof.
  unfold condition_rule, conditions, scan_conditions.
  split_ifs; intros H; try discriminate H; reflexivity.
Qed.

End RuleColumns.

Lemma probes_cover :
  map _mock_llm_response probes
  = map (fun p => response (fst p) (snd p)) reachable.
Proof. vm_compute. reflexivity. Qed.

Lemma pair_eqb_eq (p q : string * string) : pair_eqb p q = true <-> p = q.
Proof.
  destruct p as [a b], q as [a' b']. unfold pair_eqb. simpl.
  rewrite andb_true_iff, !String.eqb_eq. split; [intros [-> ->] | intros [= -> ->]]; auto.
Qed.

Lemma body_system_rule_infection (ql : string) :
  contains "infection" ql = true -> body_system_rule ql <> None.
Proof.
  intros Hc.
  assert (Hany : any_in ["infection"; "infectious"] ql = true)
    by (apply (any_in_true _ "infection"); simpl; auto).
  unfold body_system_rule. rewrite Hany. split_ifs; discriminate.
Qed.

(** No question is answered with the respiratory infection term: a question
    that holds the key holds the word infection, which the body-system rule
    takes first. *)
Lemma respiratory_is_shadowed (question : string) :
  _mock_llm_response question
  <> response "AETERM" "UPPER RESPIRATORY TRACT INFECTION".
Proof.
  unfold _mock_llm_response, rules, first_match.
  destruct (severity_rule (lower question)) eqn:E1.
  { apply severity_rule_column in E1. simpl in E1.
    destruct E1 as [<-|[<-|[<-|[]]]]; discriminate. }
  destruct (body_system_rule (lower question)) eqn:E2.
  { apply body_system_rule_column in E2 as [v ->]. discriminate. }
  destruct (condition_rule (lower question)) eqn:E3.
  { intros ->. apply condition_rule_respiratory in E3.
    apply (body_system_rule_infection (lower question)); [|assumption].
    now apply (contains_trans "infection" "respiratory infection"). }
  destruct (serious_rule (lower question)) eqn:E4.
  { apply serious_rule_value in E4. subst. discriminate. }
  destruct (relationship_rule (lower question)) eqn:E5.
  { apply relationship_rule_column in E5 as [v ->]. discriminate. }
  destruct (outcome_rule (lower question)) eqn:E6.
  { apply outcome_rule_column in E6 as [v ->]. discriminate. }
  discriminate.
Qed.

Lemma codomain_written (p : string * string) :
  In p codomain -> In p written_pairs /\ p <> ("AESER", "N").
Proof.
  intros Hin. simpl in Hin.
  repeat match type of Hin with
         | _ \/ _ => destruct Hin as [Hin|Hin]
         end; try contradiction; subst p;
    (split; [simpl; tauto | discriminate]).
Qed.

(** X1. The pairs the resolver can return are exactly the pairs its
    [return] statements are written to carry except two: (AETERM, UPPER
    RESPIRATORY TRACT INFECTION), an entry of the condition table that the
    body-system keyword infection shadows, and (AESER, N), which the
    seriousness rule's own condition excludes. *)
Theorem resolver_image (c v : string) :
  (exists question, _mock_llm_response question = response c v)
  <-> In (c, v) written_pairs /\ ~ In (c, v) unreachable_pairs.
Proof.
  split.
  - intros [question Hq].
    destruct (mock_in_codomain question) as (c' & v' & Hcv & Hin).
    rewrite Hcv in Hq. apply response_inj in Hq as [-> ->].
    apply codomain_written in Hin as [Hin Hn]. split; [assumption|].
    intros [H|[H|[]]].
    + injection H as <- <-. now apply (respiratory_is_shadowed question).
    + symmetry in H. contradiction.
  - intros [Hin Hne].
    assert (Hr : In (c, v) reachable).
    { unfold reachable. apply filter_In. split; [assumption|].
      apply negb_true_iff.
      destruct (existsb (pair_eqb (c, v)) unreachable_pairs) eqn:E; [|reflexivity].
      apply existsb_exists in E as (q & Hq & E).
      apply pair_eqb_eq in E. subst q. contradiction. }
    apply (in_map (fun p => response (fst p) (snd p))) in Hr.
    rewrite <- probes_cover in Hr. apply in_map_iff in Hr as (question & Hq & _).
    now exists question.
Qed.

Lemma resolver_image_witness :
  In ("AEOUT", "RECOVERED/RESOLVED") written_pairs
  /\ ~ In ("AEOUT", "RECOVERED/RESOLVED") unreachable_pairs.
Proof.
  apply (proj1 (resolver_image "AEOUT" "RECOVERED/RESOLVED")).
  exists "Which subjects recovered?". reflexivity.
Defined.

(** X2. A question that holds the word severe is always resolved on the
    severity column: severe is a trigger word and a level word at once, so
    the severity rule cannot fall through.  The value is MILD if the
    question also holds mild, else MODERATE if it holds moderate, else
    SEVERE. *)
Theorem severe_always_resolves_to_severity (question : string) :
  contains "severe" (lower question) = true ->
  _mock_llm_response question
  = response "AESEV"
      (if contains "mild" (lower question) then "MILD"
       else if contains "moderate" (lower question) then "MODERATE"
       else "SEVERE").
Proof.
  intros Hc.
  assert (Hany : any_in severity_triggers (lower question) = true)
    by (apply (any_in_true _ "severe"); simpl; auto).
  unfold _mock_llm_response, rules, first_match, severity_rule.
  rewrite Hany, Hc. split_ifs; reflexivity.
Qed.

Lemma severe_always_resolves_to_severity_witness :
  _mock_llm_response "Any severe cardiac events with a headache?"
  = response "AESEV" "SEVERE".
Proof.
  apply (severe_always_resolves_to_severity
           "Any severe cardiac events with a headache?").
  reflexivity.
Defined.

(** X3. The two letters gi anywhere in the question are a gastrointestinal
    keyword: such a question is only ever resolved on AESEV or AESOC, never
    by the condition table or a later rule, and when the severity rule and
    the cardiac and skin keywords are silent the answer is GASTROINTESTINAL
    DISORDERS. *)
Theorem gi_is_a_gastrointestinal_keyword (question : string) :
  contains "gi" (lower question) = true ->
  (exists c v, _mock_llm_response question = response c v
               /\ (c = "AESEV" \/ c = "AESOC"))
  /\ (severity_rule (lower question) = None ->
      any_in ["cardiac"; "heart"; "cardiovascular"] (lower question) = false ->
      any_in ["skin"; "dermal"; "dermatologic"] (lower question) = false ->
      _mock_llm_response question = response "AESOC" "GASTROINTESTINAL DISORDERS").
Proof.
  intros Hc.
  assert (Hany : any_in ["gastrointestinal"; "digestive"; "gi"; "stomach"]
                        (lower question) = true)
    by (apply (any_in_true _ "gi"); simpl; auto).
  split.
  - unfold _mock_llm_response, rules, first_match.
    destruct (severity_rule (lower question)) eqn:E1.
    { apply severity_rule_column in E1. simpl in E1.
      destruct E1 as [<-|[<-|[<-|[]]]]; do 2 eexists; (split; [reflexivity | auto]). }
    destruct (body_system_rule (lower question)) eqn:E2.
    { apply body_system_rule_column in E2 as [v ->]. eauto. }
    exfalso. revert E2. unfold body_system_rule. rewrite Hany.
    split_ifs; discriminate.
  - intros Hsev Hcard Hskin.
    unfold _mock_llm_response, rules, first_match, body_system_rule.
    now rewrite Hsev, Hcard, Hskin, Hany.
Qed.

Lemma gi_is_a_gastrointestinal_keyword_witness :
  _mock_llm_response "Give me patients with headache"
  = response "AESOC" "GASTROINTESTINAL DISORDERS".
Proof.
  apply (proj2 (gi_is_a_gastrointestinal_keyword "Give me patients with headache" eq_refl));
    reflexivity.
Defined.

(** X4. Text put before or after a question that holds a severity trigger
    word and the word mild does not change its answer (AESEV, MILD). *)
Theorem mild_severity_survives_context (before question after : string) :
  any_in severity_triggers (lower question) = true ->
  contains "mild" (lower question) = true ->
  _mock_llm_response (before ++ question ++ after)%string = response "AESEV" "MILD".
Proof.
  intros Htrig Hmild.
  unfold _mock_llm_response, rules, first_match, severity_rule.
  rewrite !lower_app.
  rewrite (any_in_extend _ _ _ _ Htrig), (contains_extend _ _ _ _ Hmild).
  reflexivity.
Qed.

Lemma mild_severity_survives_context_witness :
  _mock_llm_response
    ("Any serious cardiac problems? " ++ "Who had mild severity events?"
     ++ " And who recovered?")%string
  = response "AESEV" "MILD".
Proof.
  apply (mild_severity_survives_context
           "Any serious cardiac problems? " "Who had mild severity events?"
           " And who recovered?");
    reflexivity.
Defined.

(** ** More about [query] *)

Section QueryFacts.

Variable self : Agent.
Variable attempt : Attempt.
Variable question : string.

(** A call of [query] that returns has read two string fields and run the
    filter on them. *)
Lemma query_inv (r : QueryResult) :
  query self attempt question = inr r ->
  exists c v,
    getitem (_call_llm self attempt question) "target_column" = inr (JStr c)
    /\ getitem (_call_llm self attempt question) "filter_value" = inr (JStr v)
    /\ run_filter (df self) c v = inr r.
Proof.
  unfold query.
  destruct (getitem (_call_llm self attempt question) "target_column")
    as [e|target] eqn:Et; [discriminate|].
  destruct (getitem (_call_llm self attempt question) "filter_value")
    as [e|value] eqn:Ev; [discriminate|].
  cbn [bind].
  destruct target; try discriminate.
  destruct value;
    try (destruct (column (df self) s) as [e|series]; [discriminate|];
         cbn [bind]; destruct (str (dtype_of (df self) s) series); discriminate).
  intros Hr. eauto.
Qed.

Lemma query_of_fields (c v : string) :
  getitem (_call_llm self attempt question) "target_column" = inr (JStr c) ->
  getitem (_call_llm self attempt question) "filter_value" = inr (JStr v) ->
  query self attempt question = run_filter (df self) c v.
Proof. intros Hc Hv. unfold query. now rewrite Hc, Hv. Qed.

Lemma call_llm_with_data (data : DataFrame) :
  _call_llm (with_data self data) attempt question
  = _call_llm self attempt question.
Proof. reflexivity. Qed.

End QueryFacts.

Lemma filter_idem {A : Type} (p : A -> bool) (l : list A) :
  filter p (filter p l) = filter p l.
Proof.
  induction l as [|x l IH]; simpl; [reflexivity|].
  destruct (p x) eqn:E; simpl; [rewrite E, IH|]; auto.
Qed.

Lemma unique_nil_iff (s : Series) : unique s = [] <-> s = [].
Proof.
  destruct s as [|c s]; [tauto|]. unfold unique. simpl.
  split; discriminate.
Qed.

Lemma cell_of_index (header : list string) (name : string) (i : nat) (row : Row) :
  index_of name header = Some i -> cell_of header row name = cell_at i row.
Proof. intros H. unfold cell_of. now rewrite H. Qed.

(** X5. A returned count is 0 exactly when no row matched: the test
    criterion [count > 0] and the display condition [len(filtered_df) > 0]
    are the same condition. *)
Theorem count_is_zero_iff_nothing_matched
        (self : Agent) (attempt : Attempt) (question : string) (r : QueryResult) :
  query self attempt question = inr r ->
  (count r = 0 <-> rows (filtered_df r) = [])
  /\ Nat.ltb 0 (count r) = Nat.ltb 0 (List.length (rows (filtered_df r))).
Proof.
  intros Hr. apply query_inv in Hr as (c & v & _ & _ & Hr).
  apply run_filter_inv in Hr as (i & u & _ & _ & ->).
  unfold filtered_result. cbn [count filtered_df rows].
  set (matched := filter (row_matches i v) (rows (df self))).
  assert (H : List.length (unique (map (cell_at u) matched)) = 0 <-> matched = []).
  { rewrite length_zero_iff_nil, unique_nil_iff. split.
    - apply map_eq_nil.
    - now intros ->. }
  split; [exact H|].
  destruct (List.length (unique (map (cell_at u) matched))) eqn:L.
  - rewrite (proj1 H eq_refl). reflexivity.
  - destruct matched as [|row matched']; [|reflexivity].
    discriminate (proj2 H eq_refl).
Qed.

Lemma count_is_zero_iff_nothing_matched_witness :
  (2 = 0 <-> sample_moderate_rows = [])
  /\ Nat.ltb 0 2 = Nat.ltb 0 (List.length sample_moderate_rows).
Proof.
  apply (count_is_zero_iff_nothing_matched
           (mock_agent sample) Raised moderate_question sample_moderate_result).
  reflexivity.
Defined.

(** X6. Filtering is idempotent: the same call run on the frame it returned
    returns the same result again. *)
Theorem query_on_its_result_is_stable
        (self : Agent) (attempt : Attempt) (question : string) (r : QueryResult) :
  query self attempt question = inr r ->
  query (with_data self (filtered_df r)) attempt question = inr r.
Proof.
  intros Hr. apply query_inv in Hr as (c & v & Hc & Hv & Hr).
  rewrite (query_of_fields _ _ _ c v)
    by (rewrite call_llm_with_data; assumption).
  pose proof (run_filter_text _ _ _ _ Hr) as Ht.
  apply run_filter_inv in Hr as (i & u & Hi & Hu & ->).
  cbn [with_data df].
  rewrite (run_filter_ok (filtered_df (filtered_result (df self) v i u))
             c v i u Hi Ht Hu).
  unfold filtered_result. cbn [filtered_df columns dtypes rows].
  now rewrite filter_idem.
Qed.

Lemma query_on_its_result_is_stable_witness :
  query (with_data (mock_agent sample) (filtered_df sample_moderate_result))
        Raised moderate_question
  = inr sample_moderate_result.
Proof.
  apply (query_on_its_result_is_stable (mock_agent sample) Raised moderate_question).
  reflexivity.
Defined.

(** X7. A subject id is listed exactly when some row of the data set
    matches the parsed query and carries that id under USUBJID. *)
Theorem subject_is_listed_iff_it_has_a_matching_row
        (self : Agent) (attempt : Attempt) (question c v : string)
        (r : QueryResult) (x : Cell) :
  _call_llm self attempt question = response c v ->
  query self attempt question = inr r ->
  (In x (subject_ids r)
   <-> exists row,
        In row (rows (df self))
        /\ (exists cell, cell_of (columns (df self)) row c = Some cell
                         /\ upper cell = upper v)
        /\ cell_of (columns (df self)) row "USUBJID" = x).
Proof.
  intros parsed Hr. rewrite (query_parsed _ _ _ _ _ parsed) in Hr.
  apply run_filter_inv in Hr as (i & u & Hi & Hu & ->).
  unfold filtered_result. cbn [subject_ids].
  rewrite unique_In, in_map_iff. split.
  - intros (row & <- & Hin). apply filter_In in Hin as [Hin Hm].
    exists row. rewrite (cell_of_index _ _ _ _ Hi), (cell_of_index _ _ _ _ Hu).
    split; [assumption|]. split; [|reflexivity].
    unfold row_matches in Hm. destruct (cell_at i row) as [cell|]; [|discriminate].
    exists cell. split; [reflexivity | now apply String.eqb_eq].
  - intros (row & Hin & (cell & Hcell & Hup) & Hx).
    rewrite (cell_of_index _ _ _ _ Hi) in Hcell.
    rewrite (cell_of_index _ _ _ _ Hu) in Hx.
    exists row. split; [assumption|]. apply filter_In. split; [assumption|].
    unfold row_matches. rewrite Hcell. now apply String.eqb_eq.
Qed.

Lemma subject_is_listed_iff_it_has_a_matching_row_witness :
  In (Some "01-701-1028") (subject_ids sample_moderate_result).
Proof.
  apply (proj2 (subject_is_listed_iff_it_has_a_matching_row
                  (mock_agent sample) Raised moderate_question "AESEV" "MODERATE"
                  sample_moderate_result (Some "01-701-1028") eq_refl eq_refl)).
  exists (nth 4 (rows sample) []).
  split; [simpl; tauto|]. split; [|reflexivity].
  exists "moderate". split; reflexivity.
Defined.

Lemma rule_resolved (self : Agent) (attempt : Attempt) (question : string) :
  use_mock_llm self = true \/ attempt = ImportFailed \/ attempt = Raised ->
  _call_llm self attempt question = _mock_llm_response question.
Proof.
  intros [H|[H|H]]; try subst attempt.
  - now apply mock_mode_ignores_attempt.
  - apply raised_attempt_falls_back.
  - apply raised_attempt_falls_back.
Qed.

(** X8. When the answer comes from the rule engine (mock mode, or the
    remote attempt raised), [query] can only fail with the KeyError of
    USUBJID or of one of the six resolver columns, when the data set lacks
    that column, or with AttributeError, when one of the six is there but
    is not a text column; on a data set that has USUBJID and the six as
    text columns, [query] returns for every question. *)
Theorem rule_resolved_query_needs_seven_columns
        (self : Agent) (attempt : Attempt) (question : string) :
  use_mock_llm self = true \/ attempt = ImportFailed \/ attempt = Raised ->
  (forall e, query self attempt question = inl e ->
             (exists name, e = KeyError name
                           /\ In name ("USUBJID" :: resolver_columns)
                           /\ has_column (df self) name = false)
             \/ (e = AttributeError
                 /\ exists name, In name resolver_columns
                                 /\ has_column (df self) name = true
                                 /\ is_text (df self) name = false))
  /\ (has_column (df self) "USUBJID" = true ->
      (forall name, In name resolver_columns -> is_text (df self) name = true) ->
      exists r, query self attempt question = inr r).
Proof.
  intros Hrule. apply (rule_resolved self attempt question) in Hrule.
  destruct (mock_in_codomain question) as (c & v & Hcv & Hin).
  rewrite Hcv in Hrule.
  assert (Hc : In c resolver_columns) by (each_output Hin; simpl; tauto).
  rewrite (query_parsed _ _ _ _ _ Hrule).
  destruct (index_of c (columns (df self))) as [i|] eqn:Hi.
  2:{ rewrite run_filter_no_column by assumption. split.
      - intros e [= <-]. left. exists c.
        split; [reflexivity|]. split; [now right|].
        unfold has_column. now rewrite Hi.
      - intros _ Hall. specialize (Hall c Hc).
        apply is_text_true in Hall as (i' & Hi' & _). congruence. }
  assert (Hhas : has_column (df self) c = true)
    by (unfold has_column; now rewrite Hi).
  destruct (dtype_eq_dec (dtype_of (df self) c)) as [Ht|Ht].
  2:{ rewrite (run_filter_not_text _ _ _ i) by assumption. split.
      - intros e [= <-]. right. split; [reflexivity|]. exists c.
        split; [assumption|]. split; [assumption|].
        destruct (is_text (df self) c) eqn:E; [|reflexivity].
        apply is_text_true in E as (_ & _ & E). contradiction.
      - intros _ Hall. specialize (Hall c Hc).
        apply is_text_true in Hall as (_ & _ & E). contradiction. }
  destruct (index_of "USUBJID" (columns (df self))) as [u|] eqn:Hu.
  - rewrite (run_filter_ok _ c v i u) by assumption. split.
    + discriminate.
    + eauto.
  - rewrite (run_filter_no_subject _ c v i) by assumption. split.
    + intros e [= <-]. left. exists "USUBJID".
      split; [reflexivity|]. split; [now left|].
      unfold has_column. now rewrite Hu.
    + unfold has_column. rewrite Hu. discriminate.
Qed.

Lemma rule_resolved_query_needs_seven_columns_witness :
  (exists name,
      KeyError "AESER" = KeyError name
      /\ In name ("USUBJID" :: resolver_columns)
      /\ has_column sample name = false)
  \/ (KeyError "AESER" = AttributeError
      /\ exists name, In name resolver_columns
                      /\ has_column sample name = true
                      /\ is_text sample name = false).
Proof.
  apply (proj1 (rule_resolved_query_needs_seven_columns
                  (live_agent sample) Raised "Any serious events?"
                  (or_intror (or_intror eq_refl)))).
  reflexivity.
Defined.

(** X9. A remote reply of the wrong shape makes [query] fail before the
    data set is looked at: a reply that is not a dict raises TypeError, a
    dict without target_column raises KeyError target_column, a dict with
    target_column but without filter_value raises KeyError filter_value. *)
Theorem reply_shape_errors (data : DataFrame) (question : string) (reply : Json) :
  ((forall fields, reply <> JObj fields) ->
   query (live_agent data) (Loaded reply) question = inl TypeError)
  /\ (forall fields,
         reply = JObj fields ->
         assoc "target_column" fields = None ->
         query (live_agent data) (Loaded reply) question
         = inl (KeyError "target_column"))
  /\ (forall fields,
         reply = JObj fields ->
         assoc "target_column" fields <> None ->
         assoc "filter_value" fields = None ->
         query (live_agent data) (Loaded reply) question
         = inl (KeyError "filter_value")).
Proof.
  unfold query. cbn [_call_llm live_agent use_mock_llm].
  split; [|split].
  - intros Hshape. destruct reply; try reflexivity.
    exfalso. now apply (Hshape fields).
  - intros fields -> Ht. unfold getitem. now rewrite Ht.
  - intros fields -> Ht Hv. unfold getitem.
    destruct (assoc "target_column" fields); [|contradiction].
    now rewrite Hv.
Qed.

Lemma reply_shape_errors_witness :
  query (live_agent sample) (Loaded (JObj [("target_column", JStr "AESEV")])) ""
  = inl (KeyError "filter_value").
Proof.
  apply (proj2 (proj2 (reply_shape_errors sample ""
                         (JObj [("target_column", JStr "AESEV")])))
           [("target_column", JStr "AESEV")]).
  - reflexivity.
  - discriminate.
  - reflexivity.
Defined.

(** X10. In mock mode two questions that differ only in letter case get the
    same result from [query]. *)
Theorem question_case_is_irrelevant
        (self : Agent) (attempt attempt' : Attempt) (question question' : string) :
  use_mock_llm self = true ->
  lower question = lower question' ->
  query self attempt question = query self attempt' question'.
Proof.
  intros Hmock Hcase. unfold query.
  rewrite !mock_mode_ignores_attempt by assumption.
  unfold _mock_llm_response. now rewrite Hcase.
Qed.

Lemma question_case_is_irrelevant_witness :
  query (mock_agent sample) Raised "WHO HAD MILD SEVERITY EVENTS?"
  = query (mock_agent sample) Raised "who had mild severity events?".
Proof.
  apply (question_case_is_irrelevant (mock_agent sample) Raised Raised);
    reflexivity.
Defined.

(** X11. Rows added below a data set add to the result: on two frames with
    the same header, the matched rows of the stacked frame are the matched
    rows of the first followed by those of the second, a subject is listed
    exactly when one of the two results lists it, and the count lies
    between each of the two counts and their sum. *)
Theorem query_on_stacked_frames
        (self : Agent) (attempt : Attempt) (question : string)
        (top bottom : DataFrame) (r1 r2 : QueryResult) :
  columns top = columns bottom ->
  query (with_data self top) attempt question = inr r1 ->
  query (with_data self bottom) attempt question = inr r2 ->
  exists r,
    query (with_data self (stack top bottom)) attempt question = inr r
    /\ rows (filtered_df r) = rows (filtered_df r1) ++ rows (filtered_df r2)
    /\ (forall x, In x (subject_ids r)
                  <-> In x (subject_ids r1) \/ In x (subject_ids r2))
    /\ count r1 <= count r
    /\ count r2 <= count r
    /\ count r <= count r1 + count r2.
Proof.
  intros Hcols H1 H2.
  apply query_inv in H1 as (c & v & Hc & Hv & H1).
  apply query_inv in H2 as (c' & v' & Hc' & Hv' & H2).
  rewrite call_llm_with_data in Hc, Hv, Hc', Hv'.
  assert (c' = c) by congruence. assert (v' = v) by congruence. subst c' v'.
  cbn [with_data df] in H1, H2.
  pose proof (run_filter_text _ _ _ _ H1) as Ht.
  apply run_filter_inv in H1 as (i & u & Hi & Hu & ->).
  apply run_filter_inv in H2 as (i' & u' & Hi' & Hu' & ->).
  rewrite <- Hcols in Hi', Hu'.
  assert (i' = i) by congruence. assert (u' = u) by congruence. subst i' u'.
  exists (filtered_result (stack top bottom) v i u).
  split.
  { rewrite (query_of_fields _ _ _ c v)
      by (rewrite call_llm_with_data; assumption).
    cbn [with_data df].
    exact (run_filter_ok (stack top bottom) c v i u Hi Ht Hu). }
  unfold filtered_result, stack. cbn [count subject_ids filtered_df columns rows].
  rewrite filter_app, map_app.
  set (s1 := map (cell_at u) (filter (row_matches i v) (rows top))).
  set (s2 := map (cell_at u) (filter (row_matches i v) (rows bottom))).
  assert (Hmem : forall x, In x (unique (s1 ++ s2))
                           <-> In x (unique s1) \/ In x (unique s2)).
  { intros x. rewrite !unique_In. apply in_app_iff. }
  split; [reflexivity|]. split; [exact Hmem|].
  split; [|split].
  - apply NoDup_incl_length; [apply unique_from_NoDup|].
    intros x Hx. apply Hmem. now left.
  - apply NoDup_incl_length; [apply unique_from_NoDup|].
    intros x Hx. apply Hmem. now right.
  - rewrite <- length_app.
    apply NoDup_incl_length; [apply unique_from_NoDup|].
    intros x Hx. apply in_app_iff. now apply Hmem.
Qed.

Lemma query_on_stacked_frames_witness :
  exists r,
    query (with_data (mock_agent sample) (stack sample sample)) Raised moderate_question
    = inr r
    /\ rows (filtered_df r) = sample_moderate_rows ++ sample_moderate_rows
    /\ (forall x, In x (subject_ids r)
                  <-> In x (subject_ids sample_moderate_result)
                      \/ In x (subject_ids sample_moderate_result))
    /\ 2 <= count r
    /\ 2 <= count r
    /\ count r <= 2 + 2.
Proof.
  apply (query_on_stacked_frames (mock_agent sample) Raised moderate_question
           sample sample sample_moderate_result sample_moderate_result);
    reflexivity.
Defined.

(** ** [display_results] *)

Section Display.

Variable self : Agent.
Variable attempt : Attempt.
Variable question : string.

Lemma query_keeps_header (r : QueryResult) :
  query self attempt question = inr r -> columns (filtered_df r) = columns (df self).
Proof.
  intros Hr. apply query_inv in Hr as (c & v & _ & _ & Hr).
  apply run_filter_inv in Hr as (i & u & _ & _ & ->). reflexivity.
Qed.

Lemma display_after_error (e : PyError) :
  query self attempt question = inl e ->
  display_results self attempt question
  = ([Rule; QuestionLine question; Rule] ++ query_prints self attempt question,
     inl (QueryRaised e)).
Proof. intros He. unfold display_results. now rewrite He. Qed.

Lemma select_preview (r : QueryResult) :
  query self attempt question = inr r ->
  select_columns (filtered_df r) preview_columns
  = match missing_preview (df self) with
    | [] => inr {| columns := preview_columns;
                   dtypes := map (dtype_of (filtered_df r)) preview_columns;
                   rows := map (fun row => map (cell_of (columns (df self)) row)
                                               preview_columns)
                               (rows (filtered_df r)) |}
    | _ => inl (missing_preview (df self))
    end.
Proof.
  intros Hr. apply query_keeps_header in Hr.
  unfold select_columns, missing_preview, has_column. rewrite Hr.
  destruct (filter _ preview_columns); reflexivity.
Qed.

Lemma display_outcome (r : QueryResult) :
  query self attempt question = inr r ->
  snd (display_results self attempt question)
  = match rows (filtered_df r), missing_preview (df self) with
    | [], _ => inr tt
    | _ :: _, [] => inr tt
    | _ :: _, _ => inl (NotInIndex (missing_preview (df self)))
    end.
Proof.
  intros Hr. unfold display_results. rewrite Hr.
  rewrite (select_preview r Hr).
  destruct (rows (filtered_df r)); [reflexivity|].
  cbn [List.length Nat.ltb Nat.leb]. destruct (missing_preview (df self)); reflexivity.
Qed.

(** X12. How [display_results] ends.  An exception of [query] passes
    through.  When [query] returns and no row matched, the call succeeds
    whatever columns the data set has.  When some row matched, the call
    succeeds if the data set has the four preview columns and otherwise
    raises the KeyError of the missing ones. *)
Theorem display_results_outcome :
  (forall e, query self attempt question = inl e ->
             snd (display_results self attempt question) = inl (QueryRaised e))
  /\ (forall r, query self attempt question = inr r ->
                rows (filtered_df r) = [] ->
                snd (display_results self attempt question) = inr tt)
  /\ (forall r, query self attempt question = inr r ->
                rows (filtered_df r) <> [] ->
                (forall name, In name preview_columns ->
                              has_column (df self) name = true) ->
                snd (display_results self attempt question) = inr tt)
  /\ (forall r name,
         query self attempt question = inr r ->
         rows (filtered_df r) <> [] ->
         In name preview_columns ->
         has_column (df self) name = false ->
         snd (display_results self attempt question)
         = inl (NotInIndex (missing_preview (df self)))).
Proof.
  split; [|split; [|split]].
  - intros e He. now rewrite (display_after_error e He).
  - intros r Hr Hrows. rewrite (display_outcome r Hr). now rewrite Hrows.
  - intros r Hr Hrows Hall. rewrite (display_outcome r Hr).
    destruct (rows (filtered_df r)); [reflexivity|].
    assert (Hm : missing_preview (df self) = []).
    { unfold missing_preview.
      destruct (filter (fun name => negb (has_column (df self) name)) preview_columns)
        as [|name rest] eqn:E; [reflexivity|].
      assert (Hin : In name (name :: rest)) by now left.
      rewrite <- E in Hin. apply filter_In in Hin as [Hin Hneg].
      rewrite (Hall name Hin) in Hneg. discriminate. }
    now rewrite Hm.
  - intros r name Hr Hrows Hin Hmiss. rewrite (display_outcome r Hr).
    destruct (rows (filtered_df r)); [contradiction|].
    assert (Hm : In name (missing_preview (df self))).
    { unfold missing_preview. apply filter_In. split; [assumption|]. now rewrite Hmiss. }
    destruct (missing_preview (df self)); [contradiction | reflexivity].
Qed.

Lemma firstn_incl {A : Type} (n : nat) (l : list A) (x : A) :
  In x (firstn n l) -> In x l.
Proof.
  intros H. rewrite <- (firstn_skipn n l). apply in_or_app. now left.
Qed.

Lemma enumerate_is_numbering {A : Type} (items : list A) :
  forall start, enumerate start items = combine (seq start (List.length items)) items.
Proof.
  induction items as [|x items IH]; intros start; simpl; [reflexivity|].
  now rewrite IH.
Qed.

Lemma subject_lines_app (a b : list Printed) :
  subject_lines (a ++ b) = subject_lines a ++ subject_lines b.
Proof. unfold subject_lines. apply flat_map_app. Qed.

Lemma sample_tables_app (a b : list Printed) :
  sample_tables (a ++ b) = sample_tables a ++ sample_tables b.
Proof. unfold sample_tables. apply flat_map_app. Qed.

Lemma subject_lines_numbered (pairs : list (nat * Cell)) :
  subject_lines (map (fun '(idx, subject_id) => SubjectLine idx subject_id) pairs)
  = pairs.
Proof.
  induction pairs as [|[idx x] pairs IH]; simpl; [reflexivity|].
  f_equal. exact IH.
Qed.

Lemma sample_tables_numbered (pairs : list (nat * Cell)) :
  sample_tables (map (fun '(idx, subject_id) => SubjectLine idx subject_id) pairs)
  = [].
Proof. induction pairs as [|[idx x] pairs IH]; simpl; auto. Qed.

Lemma query_prints_plain :
  subject_lines (query_prints self attempt question) = []
  /\ sample_tables (query_prints self attempt question) = [].
Proof.
  unfold query_prints.
  rewrite subject_lines_app, sample_tables_app.
  assert (Hcall : subject_lines (_call_llm_prints self attempt) = []
                  /\ sample_tables (_call_llm_prints self attempt) = []).
  { unfold _call_llm_prints.
    destruct (use_mock_llm self), attempt; split; reflexivity. }
  destruct Hcall as [-> ->].
  destruct (getitem (_call_llm self attempt question) "target_column");
    destruct (getitem (_call_llm self attempt question) "filter_value");
    split; reflexivity.
Qed.

(** X13. When [query] returns, the subject ids are printed once each, in
    the order of the result, numbered 1, 2, ... up to the count; the two
    totals printed are the number of matched rows and the count, and the
    count is the smaller. *)
Theorem display_results_numbers_the_subjects (r : QueryResult) :
  query self attempt question = inr r ->
  let printed := fst (display_results self attempt question) in
  subject_lines printed = combine (seq 1 (count r)) (subject_ids r)
  /\ In (TotalRecords (List.length (rows (filtered_df r)))) printed
  /\ In (UniqueSubjects (count r)) printed
  /\ count r <= List.length (rows (filtered_df r)).
Proof.
  intros Hr printed. subst printed.
  destruct query_prints_plain as [Hplain _].
  assert (Hcount : count r = List.length (subject_ids r)
                   /\ count r <= List.length (rows (filtered_df r))).
  { pose proof Hr as Hr'. apply query_inv in Hr' as (c & v & _ & _ & Hr').
    apply run_filter_inv in Hr' as (i & u & _ & _ & ->).
    unfold filtered_result. cbn [count subject_ids filtered_df rows].
    split; [reflexivity|]. unfold unique.
    etransitivity; [apply unique_from_length|]. now rewrite length_map. }
  destruct Hcount as [Hlen Hle].
  unfold display_results. rewrite Hr.
  set (results := _ ++ _ ++ _ ++ _).
  assert (Hlines : subject_lines results = combine (seq 1 (count r)) (subject_ids r)).
  { subst results. rewrite !subject_lines_app, Hplain, subject_lines_numbered.
    cbn [subject_lines flat_map app]. rewrite enumerate_is_numbering.
    now rewrite Hlen. }
  assert (Htot : In (TotalRecords (List.length (rows (filtered_df r)))) results
                 /\ In (UniqueSubjects (count r)) results).
  { subst results. rewrite !in_app_iff. simpl. tauto. }
  destruct Htot as [Ht Hu].
  destruct (Nat.ltb 0 (List.length (rows (filtered_df r))));
    [destruct (select_columns (filtered_df r) preview_columns)|];
    cbn [fst]; rewrite subject_lines_app, Hlines, !in_app_iff;
    cbn [subject_lines flat_map app]; rewrite app_nil_r; auto.
Qed.

(** X14. A sample table is printed at most once, and only when some row
    matched; it has the four preview columns, the first five matched rows
    at most, and four cells in every row. *)
Theorem display_results_preview (shown : DataFrame) :
  In shown (sample_tables (fst (display_results self attempt question))) ->
  sample_tables (fst (display_results self attempt question)) = [shown]
  /\ columns shown = preview_columns
  /\ List.length (rows shown) <= 5
  /\ (forall row, In row (rows shown) -> List.length row = 4)
  /\ exists r,
       query self attempt question = inr r
       /\ rows (filtered_df r) <> []
       /\ List.length (rows shown) = Nat.min 5 (List.length (rows (filtered_df r)))
       /\ rows shown
          = firstn 5 (map (fun row => map (cell_of (columns (df self)) row)
                                          preview_columns)
                          (rows (filtered_df r))).
Proof.
  destruct query_prints_plain as [_ Hplain].
  unfold display_results.
  destruct (query self attempt question) as [e|r] eqn:Hr.
  { cbn [fst]. rewrite sample_tables_app, Hplain. simpl. contradiction. }
  set (results := _ ++ _ ++ _ ++ _).
  assert (Hres : sample_tables results = []).
  { subst results. rewrite !sample_tables_app, Hplain, sample_tables_numbered.
    reflexivity. }
  destruct (rows (filtered_df r)) as [|row0 rest] eqn:Hrows.
  { cbn [List.length Nat.ltb Nat.leb fst].
    rewrite sample_tables_app, Hres. simpl. contradiction. }
  cbn [List.length Nat.ltb Nat.leb].
  rewrite (select_preview r Hr), Hrows.
  destruct (missing_preview (df self)).
  2:{ cbn [fst]. rewrite sample_tables_app, Hres. simpl. contradiction. }
  cbn [fst]. rewrite sample_tables_app, Hres.
  cbn [sample_tables flat_map app].
  intros [<-|[]].
  split; [reflexivity|]. split; [reflexivity|].
  unfold head. cbn [columns rows].
  split; [rewrite length_firstn; lia|].
  split.
  - intros row Hin. apply firstn_incl in Hin.
    apply in_map_iff in Hin as (row' & <- & _). reflexivity.
  - exists r. split; [reflexivity|]. rewrite Hrows.
    split; [discriminate|]. split; [|reflexivity].
    now rewrite length_firstn, length_map.
Qed.

End Display.

Lemma display_results_outcome_witness :
  snd (display_results (mock_agent no_organ_class) Raised moderate_question)
  = inl (NotInIndex ["AESOC"]).
Proof.
  apply (proj2 (proj2 (proj2 (display_results_outcome
                                (mock_agent no_organ_class) Raised moderate_question)))
           {| count := 1;
              subject_ids := [Some "01-701-1023"];
              filtered_df := {| columns := columns no_organ_class;
                                dtypes := dtypes no_organ_class;
                                rows := [nth 1 (rows no_organ_class) []] |} |}
           "AESOC").
  - reflexivity.
  - discriminate.
  - simpl; tauto.
  - reflexivity.
Defined.

Lemma display_results_numbers_the_subjects_witness :
  let printed := fst (display_results (mock_agent sample) Raised moderate_question) in
  subject_lines printed = [(1, Some "01-701-1023"); (2, Some "01-701-1028")]
  /\ In (TotalRecords 3) printed
  /\ In (UniqueSubjects 2) printed
  /\ 2 <= 3.
Proof.
  apply (display_results_numbers_the_subjects
           (mock_agent sample) Raised moderate_question sample_moderate_result).
  reflexivity.
Defined.

Lemma display_results_preview_witness :
  exists shown,
    sample_tables (fst (display_results (mock_agent sample) Raised moderate_question))
    = [shown]
    /\ columns shown = preview_columns
    /\ List.length (rows shown) <= 5.
Proof.
  eexists.
  refine (let H := display_results_preview
                     (mock_agent sample) Raised moderate_question _ _ in
          conj (proj1 H) (conj (proj1 (proj2 H)) (proj1 (proj2 (proj2 H))))).
  simpl. left. reflexivity.
Defined.

(** ** The test script and the demonstration *)

Section Scripts.

Variable data : DataFrame.

Hypothesis complete :
  forall name, In name preview_columns -> has_column data name = true.

Hypothesis textual :
  forall name, In name filtered_columns -> is_text data name = true.

Lemma nothing_missing : missing_preview data = [].
Proof.
  unfold missing_preview.
  destruct (filter (fun name => negb (has_column data name)) preview_columns)
    as [|name rest] eqn:E; [reflexivity|].
  assert (Hin : In name (name :: rest)) by now left.
  rewrite <- E in Hin. apply filter_In in Hin as [Hin Hneg].
  rewrite (complete name Hin) in Hneg. discriminate.
Qed.

(** On a data set with the four preview columns, a question resolved on one
    of the three filtered columns, which holds text, is displayed and
    counted without an exception, and it passes exactly when the data set
    has a record for it. *)
Lemma run_test_case_complete (question c v : string) :
  _mock_llm_response question = response c v ->
  In c filtered_columns ->
  exists r,
    query (mock_agent data) ImportFailed question = inr r
    /\ snd (display_results (mock_agent data) ImportFailed question) = inr tt
    /\ run_test_case (mock_agent data) question = inr (Nat.ltb 0 (count r))
    /\ (Nat.ltb 0 (count r) = true <-> has_record data c v).
Proof.
  intros Hq Hc.
  destruct (is_text_true data c (textual c Hc)) as (i & Hi & Ht).
  destruct (has_column_true data "USUBJID" (complete "USUBJID" (or_introl eq_refl)))
    as [u Hu].
  assert (Hr : query (mock_agent data) ImportFailed question
               = inr (filtered_result data v i u)).
  { rewrite (query_parsed _ _ _ c v) by exact Hq.
    cbn [mock_agent df]. now apply run_filter_ok. }
  assert (Hd : snd (display_results (mock_agent data) ImportFailed question) = inr tt).
  { rewrite (display_outcome _ _ _ _ Hr). cbn [mock_agent df].
    rewrite nothing_missing. now destruct (rows _). }
  exists (filtered_result data v i u).
  split; [exact Hr|]. split; [exact Hd|]. split.
  - unfold run_test_case. now rewrite Hd, Hr.
  - unfold filtered_result, has_record. cbn [count].
    set (matched := filter (row_matches i v) (rows data)).
    split.
    + intros Hpos. destruct matched as [|row rest] eqn:E; [discriminate|].
      assert (Hin : In row matched) by (rewrite E; now left).
      apply filter_In in Hin as [Hin Hm]. eauto.
    + intros (i' & row & Hi' & Hin & Hm).
      assert (i' = i) by congruence. subst i'.
      assert (Hmatched : In row matched) by (apply filter_In; auto).
      destruct matched as [|row' rest]; [contradiction|]. reflexivity.
Qed.

End Scripts.

Lemma display_returns (self : Agent) (attempt : Attempt) (question : string) :
  snd (display_results self attempt question) = inr tt ->
  exists r, query self attempt question = inr r.
Proof.
  destruct (query self attempt question) as [e|r] eqn:Hr; [|eauto].
  rewrite (display_after_error _ _ _ e Hr). discriminate.
Qed.

(** A question of the rule engine that is displayed without an exception was
    resolved on a text column the data set has, and the data set has
    USUBJID. *)
Lemma display_needs_columns (data : DataFrame) (question c v : string) :
  _mock_llm_response question = response c v ->
  snd (display_results (mock_agent data) ImportFailed question) = inr tt ->
  is_text data c = true /\ has_column data "USUBJID" = true.
Proof.
  intros Hq Hd. apply display_returns in Hd as [r Hr].
  rewrite (query_parsed _ _ _ c v) in Hr by exact Hq.
  pose proof (run_filter_text _ _ _ _ Hr) as Ht.
  apply run_filter_inv in Hr as (i & u & Hi & Hu & _).
  cbn [mock_agent df] in Hi, Hu, Ht.
  split; [now apply (is_text_intro data c i)|].
  unfold has_column. now rewrite Hu.
Qed.

Lemma run_test_case_returns (data : DataFrame) (question c v : string) (b : bool) :
  _mock_llm_response question = response c v ->
  run_test_case (mock_agent data) question = inr b ->
  is_text data c = true /\ has_column data "USUBJID" = true.
Proof.
  intros Hq. unfold run_test_case.
  destruct (snd (display_results (mock_agent data) ImportFailed question))
    as [e|[]] eqn:Hd; [discriminate|].
  intros _. now apply (display_needs_columns data question c v).
Qed.

Lemma is_text_has_column (data : DataFrame) (name : string) :
  is_text data name = true -> has_column data name = true.
Proof. unfold is_text. intros H. now apply andb_true_iff in H as [H _]. Qed.

Lemma scripts_columns (data : DataFrame) :
  has_column data "USUBJID" = true ->
  is_text data "AESEV" = true ->
  is_text data "AESOC" = true ->
  is_text data "AETERM" = true ->
  (forall name, In name preview_columns -> has_column data name = true)
  /\ (forall name, In name filtered_columns -> is_text data name = true).
Proof.
  intros Hs H1 H2 H3. split; intros name Hin; simpl in Hin.
  - destruct Hin as [<-|[<-|[<-|[<-|[]]]]];
      auto using is_text_has_column.
  - destruct Hin as [<-|[<-|[<-|[]]]]; assumption.
Qed.

(** X15. [run_basic_tests] returns a verdict, rather than ending in an
    exception, exactly when the data set has the four columns USUBJID,
    AETERM, AESEV and AESOC and the three filtered ones, AESEV, AESOC and
    AETERM, are text columns. *)
Theorem run_basic_tests_returns_iff_columns (data : DataFrame) :
  (exists verdict, run_basic_tests data = inr verdict)
  <-> (forall name, In name preview_columns -> has_column data name = true)
      /\ (forall name, In name filtered_columns -> is_text data name = true).
Proof.
  split.
  - intros [verdict Hrun]. unfold run_basic_tests, test_cases, run_test_cases in Hrun.
    destruct (run_test_case (mock_agent data) moderate_question) as [e|b1] eqn:E1;
      [discriminate|].
    destruct (run_test_case (mock_agent data) cardiac_question) as [e|b2] eqn:E2;
      [discriminate|].
    destruct (run_test_case (mock_agent data) erythema_question) as [e|b3] eqn:E3;
      [discriminate|].
    apply (run_test_case_returns data _ "AESEV" "MODERATE") in E1 as [H1 Hs];
      [|reflexivity].
    apply (run_test_case_returns data _ "AESOC" "CARDIAC DISORDERS") in E2 as [H2 _];
      [|reflexivity].
    apply (run_test_case_returns data _ "AETERM" "ERYTHEMA") in E3 as [H3 _];
      [|reflexivity].
    now apply scripts_columns.
  - intros [Hall Htext]. unfold run_basic_tests, test_cases, run_test_cases.
    destruct (run_test_case_complete data Hall Htext moderate_question
                "AESEV" "MODERATE")
      as (r1 & _ & _ & -> & _); [reflexivity | simpl; tauto |].
    destruct (run_test_case_complete data Hall Htext cardiac_question
                "AESOC" "CARDIAC DISORDERS")
      as (r2 & _ & _ & -> & _); [reflexivity | simpl; tauto |].
    destruct (run_test_case_complete data Hall Htext erythema_question
                "AETERM" "ERYTHEMA")
      as (r3 & _ & _ & -> & _); [reflexivity | simpl; tauto |].
    eauto.
Qed.

Lemma sample_is_complete :
  (forall name, In name preview_columns -> has_column sample name = true)
  /\ (forall name, In name filtered_columns -> is_text sample name = true).
Proof. apply scripts_columns; reflexivity. Qed.

Lemma run_basic_tests_returns_iff_columns_witness :
  exists verdict, run_basic_tests sample = inr verdict.
Proof.
  apply (proj2 (run_basic_tests_returns_iff_columns sample)).
  exact sample_is_complete.
Defined.

(** X16. On a data set with those four columns, the three filtered ones
    being text columns, the verdict of [run_basic_tests] is True, and the
    exit code 0, exactly when the data set has a moderate record, a
    cardiac-disorders record and an erythema record (in any letter case);
    the expected column and value listed in the test cases play no part. *)
Theorem run_basic_tests_verdict (data : DataFrame) :
  (forall name, In name preview_columns -> has_column data name = true) ->
  (forall name, In name filtered_columns -> is_text data name = true) ->
  exists verdict,
    run_basic_tests data = inr verdict
    /\ (verdict = true
        <-> has_record data "AESEV" "MODERATE"
            /\ has_record data "AESOC" "CARDIAC DISORDERS"
            /\ has_record data "AETERM" "ERYTHEMA")
    /\ (exit_code verdict = 0 <-> verdict = true).
Proof.
  intros Hall Htext. unfold run_basic_tests, test_cases, run_test_cases.
  destruct (run_test_case_complete data Hall Htext moderate_question
              "AESEV" "MODERATE")
    as (r1 & _ & _ & -> & H1); [reflexivity | simpl; tauto |].
  destruct (run_test_case_complete data Hall Htext cardiac_question
              "AESOC" "CARDIAC DISORDERS")
    as (r2 & _ & _ & -> & H2); [reflexivity | simpl; tauto |].
  destruct (run_test_case_complete data Hall Htext erythema_question
              "AETERM" "ERYTHEMA")
    as (r3 & _ & _ & -> & H3); [reflexivity | simpl; tauto |].
  eexists. split; [reflexivity|].
  rewrite <- H1, <- H2, <- H3.
  split.
  - destruct (Nat.ltb 0 (count r1)), (Nat.ltb 0 (count r2)), (Nat.ltb 0 (count r3));
      simpl; intuition discriminate.
  - destruct (Nat.ltb 0 (count r1)), (Nat.ltb 0 (count r2)), (Nat.ltb 0 (count r3));
      simpl; intuition discriminate.
Qed.

Lemma run_basic_tests_verdict_witness :
  exists verdict,
    run_basic_tests sample = inr verdict
    /\ (verdict = true
        <-> has_record sample "AESEV" "MODERATE"
            /\ has_record sample "AESOC" "CARDIAC DISORDERS"
            /\ has_record sample "AETERM" "ERYTHEMA")
    /\ (exit_code verdict = 0 <-> verdict = true).
Proof.
  apply (run_basic_tests_verdict sample);
    [exact (proj1 sample_is_complete) | exact (proj2 sample_is_complete)].
Defined.

(** The sample data has no cardiac record, so the basic tests fail on it. *)
Example run_basic_tests_sample : run_basic_tests sample = inr false.
Proof. reflexivity. Qed.

(** With every AESOC cell blank in the file the second question ends the
    basic tests and [main] in an exception. *)
Example run_basic_tests_blank_organ_class :
  run_basic_tests blank_organ_class = inl (QueryRaised AttributeError)
  /\ snd (main blank_organ_class) = inl (QueryRaised AttributeError).
Proof. split; reflexivity. Qed.

(** X17. [main] runs to its end, rather than ending in an exception,
    exactly when the data set has the four columns USUBJID, AETERM, AESEV
    and AESOC and the three filtered ones, AESEV, AESOC and AETERM, are
    text columns. *)
Theorem main_completes_iff_columns (data : DataFrame) :
  snd (main data) = inr tt
  <-> (forall name, In name preview_columns -> has_column data name = true)
      /\ (forall name, In name filtered_columns -> is_text data name = true).
Proof.
  unfold main, test_cases, display_all.
  split.
  - destruct (display_results (mock_agent data) ImportFailed moderate_question)
      as [p1 [e|[]]] eqn:E1; [discriminate|].
    destruct (display_results (mock_agent data) ImportFailed cardiac_question)
      as [p2 [e|[]]] eqn:E2; [discriminate|].
    destruct (display_results (mock_agent data) ImportFailed erythema_question)
      as [p3 [e|[]]] eqn:E3; [discriminate|].
    intros _.
    destruct (display_needs_columns data moderate_question "AESEV" "MODERATE")
      as [H1 Hs]; [reflexivity | now rewrite E1 |].
    destruct (display_needs_columns data cardiac_question "AESOC" "CARDIAC DISORDERS")
      as [H2 _]; [reflexivity | now rewrite E2 |].
    destruct (display_needs_columns data erythema_question "AETERM" "ERYTHEMA")
      as [H3 _]; [reflexivity | now rewrite E3 |].
    now apply scripts_columns.
  - intros [Hall Htext].
    destruct (run_test_case_complete data Hall Htext moderate_question
                "AESEV" "MODERATE")
      as (r1 & _ & D1 & _); [reflexivity | simpl; tauto |].
    destruct (run_test_case_complete data Hall Htext cardiac_question
                "AESOC" "CARDIAC DISORDERS")
      as (r2 & _ & D2 & _); [reflexivity | simpl; tauto |].
    destruct (run_test_case_complete data Hall Htext erythema_question
                "AETERM" "ERYTHEMA")
      as (r3 & _ & D3 & _); [reflexivity | simpl; tauto |].
    destruct (display_results (mock_agent data) ImportFailed moderate_question)
      as [p1 o1]; cbn [snd] in D1; subst o1.
    destruct (display_results (mock_agent data) ImportFailed cardiac_question)
      as [p2 o2]; cbn [snd] in D2; subst o2.
    destruct (display_results (mock_agent data) ImportFailed erythema_question)
      as [p3 o3]; cbn [snd] in D3; subst o3.
    reflexivity.
Qed.

Lemma main_completes_iff_columns_witness :
  snd (main sample) = inr tt.
Proof.
  apply (proj2 (main_completes_iff_columns sample)).
  exact sample_is_complete.
Defined.

(** On the data set without AESOC the first question already ends [main]. *)
Example main_no_organ_class :
  snd (main no_organ_class) = inl (NotInIndex ["AESOC"]).
Proof. reflexivity. Qed.
